(** * hazbase/react: the wallet session of [WalletContext.tsx] and its hooks

    A shallow embedding of [src/context/WalletContext.tsx], [src/types.ts]
    and the three hooks [useSigner], [useAddress], [useNetwork].

    The React state cell, [localStorage], the handlers registered on the
    injected wallet object and the requests sent to it are the fields of one
    explicit [World]; every action of the provider is a computation in a small
    state-and-exception monad over that world.  Everything the code awaits
    from outside (the injected wallet, the RPC endpoints) is read from an
    [Env] record of answers, so that each step of an action can succeed or
    reject independently. *)

From Stdlib Require Import ZArith List String HexadecimalString.
From Stdlib Require HexadecimalZ.
From stdpp Require Import base list gmap strings.

Local Open Scope Z_scope.
Local Open Scope string_scope.

(** ** types.ts *)

(** [Hex] is the template type [`0x${string}`]: a string at run time. *)
Definition Hex := string.

Inductive Status := disconnected | connecting | connected | locked.

Record NativeCurrency := {
  nc_name : string;
  nc_symbol : string;
  nc_decimals : Z
}.

Record BlockExplorer := {
  be_name : string;
  be_url : string
}.

(** [ChainConfig]; the fields [id] and [name] of the source carry a
    [chain_] prefix here, the optional ones are options. *)
Record ChainConfig := {
  chain_id : Z;
  chain_name : string;
  rpcUrls : list string;
  icon : option string;
  nativeCurrency : option NativeCurrency;
  blockExplorers : option (list BlockExplorer)
}.

(** ** Handles of the ethers library *)

(** [new ethers.BrowserProvider(eth, "any")] or [new JsonRpcProvider(rpcUrl)]. *)
Inductive Provider :=
| BrowserProvider
| JsonRpcProvider (rpcUrl : string).

(** [new Wallet(privateKey, provider)]. *)
Record Wallet := {
  privateKey : Hex;
  wallet_provider : Provider
}.

(** [JsonRpcSigner | Wallet]. *)
Inductive Signer :=
| JsonRpcSigner (address : Hex)
| WalletSigner (w : Wallet).

(** ** WalletState *)

(** [type Connector = "metamask" | "guest" | null]: the two names, with
    [null] as [None]. *)
Inductive ConnectorName := metamask | guest.

Record WalletState := {
  status : Status;
  connector : option ConnectorName;
  provider : option Provider;
  signer : option Signer;
  account : option Hex;
  chainId : option Z;
  chain : option ChainConfig
}.

(** The argument of [useState]. *)
Definition initialState : WalletState := {|
  status := disconnected;
  connector := None;
  provider := None;
  signer := None;
  account := None;
  chainId := None;
  chain := None
|}.

(** ** Errors and results *)

(** A thrown value: [code] is its [code] property when that is a number
    (the rejections of an EIP-1193 wallet carry one), [new Error(message)]
    has none. *)
Record JsError := {
  code : option Z;
  message : string
}.

Definition Error (msg : string) : JsError := {| code := None; message := msg |}.

Inductive Result (A : Type) :=
| Ok (a : A)
| Throw (e : JsError).
Arguments Ok {A} a.
Arguments Throw {A} e.

(** ** The injected wallet and the world *)

(** The parameter object of [wallet_addEthereumChain]. *)
Record AddChainParams := {
  p_chainId : string;
  p_chainName : string;
  p_rpcUrls : list string;
  p_nativeCurrency : NativeCurrency;
  p_blockExplorerUrls : list string
}.

(** The two requests this module itself sends through [eth.request].  What
    the [BrowserProvider] sends to the wallet on its own account
    ([eth_requestAccounts], [eth_accounts], [eth_chainId]) is not of this
    type: its outcome is an answer of [Env]. *)
Inductive RpcRequest :=
| wallet_switchEthereumChain (chainIdHex : string)
| wallet_addEthereumChain (params : AddChainParams).

(** The handlers [bindInjectedEvents] registers: [onAccounts] for
    ["accountsChanged"], and [onChain], which closes over the provider, for
    ["chainChanged"]. *)
Inductive Listener :=
| onAccounts
| onChain (provider : Provider).

(** What the injected wallet emits. *)
Inductive Event :=
| accountsChanged (accounts : list Hex)
| chainChanged (chainIdHex : string).

(** [globalThis.ethereum]: its [request] method when it has one, and
    whether it has an [on] method. *)
Record Ethereum := {
  eth_request : option (RpcRequest -> Result unit);
  eth_on : bool
}.

(** The answers of the outside during one action: the injected object,
    and the outcome of each call the code awaits from ethers. The calls on
    a [BrowserProvider] reach the injected wallet too; they are not entered
    in the [requests] of the world, which lists the direct calls of
    [eth.request] only. *)
Record Env := {
  ethereum : option Ethereum;
  (** [provider.send("eth_requestAccounts", [])] *)
  send_eth_requestAccounts : Result unit;
  (** [provider.getSigner()]: the address of the signer obtained *)
  getSigner : Result Hex;
  (** [signer.getAddress()] on a [JsonRpcSigner] *)
  jsonRpcSigner_getAddress : Hex -> Result Hex;
  (** [Number((await provider.getNetwork()).chainId)] *)
  getNetwork : Provider -> Result Z
}.

(** [current] is the value held by [useState]; the closures of the
    provider read the [state] of the render they were created in. *)
Record World := {
  current : WalletState;
  localStorage : gmap string string;
  listeners : list Listener;
  requests : list RpcRequest
}.

(** ** The monad of actions: state over [World], with exceptions *)

Definition M (A : Type) : Type := World -> Result A * World.

Definition ret {A} (a : A) : M A := fun w => (Ok a, w).

Definition throw {A} (e : JsError) : M A := fun w => (Throw e, w).

Definition bind {A B} (c : M A) (k : A -> M B) : M B :=
  fun w =>
    match c w with
    | (Ok a, w') => k a w'
    | (Throw e, w') => (Throw e, w')
    end.

(** [await r]: the awaited promise resolves or rejects. *)
Definition await {A} (r : Result A) : M A := fun w => (r, w).

(** [try { c } catch (err) { h err }] *)
Definition try_catch {A} (c : M A) (h : JsError -> M A) : M A :=
  fun w =>
    match c w with
    | (Ok a, w') => (Ok a, w')
    | (Throw err, w') => h err w'
    end.

Declare Scope action_scope.
Delimit Scope action_scope with action.
Notation "'let*' x := c 'in' k" := (bind c (fun x => k))
  (at level 10, x name, c at level 100, k at level 200) : action_scope.
Notation "c >> k" := (bind c (fun _ => k))
  (at level 62, right associativity) : action_scope.
Local Open Scope action_scope.

(** [setState(f)] with a functional update; [setState(v)] is [setState (fun _ => v)]. *)
Definition setState (f : WalletState -> WalletState) : M unit :=
  fun w => (Ok tt, {| current := f (current w);
                      localStorage := localStorage w;
                      listeners := listeners w;
                      requests := requests w |}).

(** [localStorage.setItem(k, v)] on a working [Storage]: the write
    succeeds.  (A [Storage] that is full or disabled throws here; that
    case is outside this model.) *)
Definition localStorage_setItem (k v : string) : M unit :=
  fun w => (Ok tt, {| current := current w;
                      localStorage := <[k := v]> (localStorage w);
                      listeners := listeners w;
                      requests := requests w |}).

Definition localStorage_getItem (k : string) : M (option string) :=
  fun w => (Ok (localStorage w !! k), w).

Definition localStorage_removeItem (k : string) : M unit :=
  fun w => (Ok tt, {| current := current w;
                      localStorage := delete k (localStorage w);
                      listeners := listeners w;
                      requests := requests w |}).

(** [eth.on(name, handler)]: the name is the one the handler listens to. *)
Definition eth_on_register (l : Listener) : M unit :=
  fun w => (Ok tt, {| current := current w;
                      localStorage := localStorage w;
                      listeners := listeners w ++ [l];
                      requests := requests w |}).

(** [await eth.request(r)]: the request is sent, then answered. *)
Definition eth_request_send (request : RpcRequest -> Result unit) (r : RpcRequest) : M unit :=
  fun w => (request r, {| current := current w;
                          localStorage := localStorage w;
                          listeners := listeners w;
                          requests := requests w ++ [r] |}).

(** ** The updates passed to [setState] *)

(** [s => ({ ...s, status })] *)
Definition with_status (st : Status) (s : WalletState) : WalletState := {|
  status := st;
  connector := connector s;
  provider := provider s;
  signer := signer s;
  account := account s;
  chainId := chainId s;
  chain := chain s
|}.

(** [s => ({ ...s, account })] *)
Definition with_account (a : option Hex) (s : WalletState) : WalletState := {|
  status := status s;
  connector := connector s;
  provider := provider s;
  signer := signer s;
  account := a;
  chainId := chainId s;
  chain := chain s
|}.

(** [s => ({ ...s, chainId, chain })] *)
Definition with_chain (c : option Z) (cfg : option ChainConfig) (s : WalletState) : WalletState := {|
  status := status s;
  connector := connector s;
  provider := provider s;
  signer := signer s;
  account := account s;
  chainId := c;
  chain := cfg
|}.

(** [s => ({ ...s, provider, signer, chainId, chain })] *)
Definition with_rebind (p : Provider) (sg : Signer) (c : option Z) (cfg : option ChainConfig)
    (s : WalletState) : WalletState := {|
  status := status s;
  connector := connector s;
  provider := Some p;
  signer := Some sg;
  account := account s;
  chainId := c;
  chain := cfg
|}.

(** [`0x${id.toString(16)}`] for an integer [id]. *)
Definition toString16 (n : Z) : string := NilZero.string_of_int (Z.to_hex_int n).

Definition hexChainId (n : Z) : string := "0x" ++ toString16 n.


(** ** WalletContext.tsx: the provider *)

Section WalletProvider.

(** The [knownChains] prop. *)
Variable knownChains : list ChainConfig.

(** The key arithmetic of ethers: which strings [new Wallet] accepts as a
    private key, and the address of a key. *)
Variable isValidPrivateKey : Hex -> bool.
Variable computeAddress : Hex -> Hex.

Definition lastConnectorKey : string := "@hazbase/react:last-connector".

Definition resolveChain (id : option Z) : option ChainConfig :=
  match id with
  | None => None
  | Some i => List.find (fun c => (chain_id c =? i)%Z) knownChains
  end.

(** [new Wallet(key, provider)]; [key] is [None] for [undefined]. *)
Definition new_Wallet (key : option Hex) (p : Provider) : Result Wallet :=
  match key with
  | Some k =>
      if isValidPrivateKey k
      then Ok {| privateKey := k; wallet_provider := p |}
      else Throw (Error "invalid private key")
  | None => Throw (Error "invalid private key")
  end.

(** [wallet.getAddress()] *)
Definition wallet_getAddress (w : Wallet) : Hex := computeAddress (privateKey w).

(** [(state.signer as Wallet).privateKey]: the cast checks nothing, so a
    [null] signer is a TypeError and a [JsonRpcSigner] gives [undefined]. *)
Definition prevWallet_privateKey (s : option Signer) : Result (option Hex) :=
  match s with
  | None => Throw (Error "TypeError: cannot read properties of null")
  | Some (JsonRpcSigner _) => Ok None
  | Some (WalletSigner w) => Ok (Some (privateKey w))
  end.

(** [eth?.request]: the injected object, when it exists and has a
    [request] method. *)
Definition injected (env : Env) : option (Ethereum * (RpcRequest -> Result unit)) :=
  match ethereum env with
  | Some eth =>
      match eth_request eth with
      | Some request => Some (eth, request)
      | None => None
      end
  | None => None
  end.

Definition bindInjectedEvents (eth : Ethereum) (provider : Provider) : M unit :=
  if eth_on eth
  then eth_on_register onAccounts >> eth_on_register (onChain provider)
  else ret tt.

(** The body of the handler [l] on the event [ev]; a handler only runs
    on the event it was registered for. *)
Definition handle (env : Env) (ev : Event) (l : Listener) : M unit :=
  match ev, l with
  | accountsChanged accounts, onAccounts =>
      let account := accounts !! 0%nat in
      setState (with_account account)
  | chainChanged _chainIdHex, onChain provider =>
      let* chainId := await (getNetwork env provider) in
      setState (with_chain (Some chainId) (resolveChain (Some chainId)))
  | _, _ => ret tt
  end.

(** The injected wallet emits [ev]: every registered handler runs, in
    order of registration; a rejected handler is nobody's to catch. *)
Definition emit (env : Env) (ev : Event) : M unit :=
  fun w => (Ok tt, fold_left (fun w' l => snd (handle env ev l w')) (listeners w) w).

Definition connectMetaMask (env : Env) : M unit :=
  setState (with_status connecting) >>
  match injected env with
  | None =>
      setState (with_status disconnected) >>
      throw (Error "METAMASK_NOT_FOUND")
  | Some (eth, _) =>
      let provider := BrowserProvider in
      await (send_eth_requestAccounts env) >>
      let* signer := await (getSigner env) in
      let* account := await (jsonRpcSigner_getAddress env signer) in
      let* chainId := await (getNetwork env provider) in
      bindInjectedEvents eth provider >>
      localStorage_setItem lastConnectorKey "metamask" >>
      setState (fun _ => {|
        status := connected;
        connector := Some metamask;
        provider := Some provider;
        signer := Some (JsonRpcSigner signer);
        account := Some account;
        chainId := Some chainId;
        chain := resolveChain (Some chainId)
      |})
  end.

Definition connectGuest (env : Env) (privKey : Hex) (rpcUrl : string) : M unit :=
  setState (with_status connecting) >>
  let provider := JsonRpcProvider rpcUrl in
  let* wallet := await (new_Wallet (Some privKey) provider) in
  let account := wallet_getAddress wallet in
  let* chainId := await (getNetwork env provider) in
  localStorage_setItem lastConnectorKey "guest" >>
  setState (fun _ => {|
    status := connected;
    connector := Some guest;
    provider := Some provider;
    signer := Some (WalletSigner wallet);
    account := Some account;
    chainId := Some chainId;
    chain := resolveChain (Some chainId)
  |}).

Definition disconnect : M unit :=
  localStorage_removeItem lastConnectorKey >>
  setState (fun _ => {|
    status := disconnected;
    connector := None;
    provider := None;
    signer := None;
    account := None;
    chainId := None;
    chain := None
  |}).

Definition refreshNetwork (state : WalletState) (env : Env) : M unit :=
  match provider state with
  | None => ret tt
  | Some p =>
      let* chainId := await (getNetwork env p) in
      setState (with_chain (Some chainId) (resolveChain (Some chainId)))
  end.

(** The parameter object both [ensureOnInjected] and [addChain] build. *)
Definition addEthereumChainParams (target : ChainConfig) : AddChainParams := {|
  p_chainId := hexChainId (chain_id target);
  p_chainName := chain_name target;
  p_rpcUrls := rpcUrls target;
  p_nativeCurrency :=
    default {| nc_name := "ETH"; nc_symbol := "ETH"; nc_decimals := 18 |}
            (nativeCurrency target);
  p_blockExplorerUrls := default [] (map be_url <$> blockExplorers target)
|}.

(** [err?.code === 4902] *)
Definition is4902 (err : JsError) : bool :=
  match code err with
  | Some c => (c =? 4902)%Z
  | None => false
  end.

Definition ensureOnInjected (env : Env) (target : ChainConfig) : M unit :=
  match injected env with
  | None => throw (Error "NO_INJECTED_PROVIDER")
  | Some (_, request) =>
      try_catch
        (eth_request_send request
           (wallet_switchEthereumChain (hexChainId (chain_id target))))
        (fun err =>
           (* [target.rpcUrls?.length]: zero is falsy *)
           if is4902 err && negb (Nat.eqb (length (rpcUrls target)) 0)
           then eth_request_send request
                  (wallet_addEthereumChain (addEthereumChainParams target))
           else throw err)
  end.

Definition switchChain (state : WalletState) (env : Env) (target : ChainConfig) : M unit :=
  match connector state with
  | Some metamask =>
      ensureOnInjected env target >>
      refreshNetwork state env
  | Some guest =>
      match rpcUrls target !! 0%nat with
      | None => throw (Error "RPC_URL_REQUIRED")
      | Some rpcUrl =>
          (* [!rpcUrl]: the empty string is falsy *)
          if String.eqb rpcUrl EmptyString
          then throw (Error "RPC_URL_REQUIRED")
          else
            let provider := JsonRpcProvider rpcUrl in
            let* key := await (prevWallet_privateKey (signer state)) in
            let* wallet := await (new_Wallet key provider) in
            let* chainId := await (getNetwork env provider) in
            setState (with_rebind provider (WalletSigner wallet)
                        (Some chainId) (resolveChain (Some chainId)))
      end
  | None => throw (Error "UNSUPPORTED_CONNECTOR")
  end.

Definition addChain (env : Env) (params : ChainConfig) : M unit :=
  match injected env with
  | None => throw (Error "NO_INJECTED_PROVIDER")
  | Some (_, request) =>
      eth_request_send request (wallet_addEthereumChain (addEthereumChainParams params))
  end.

(** The auto-connect effect of the first render; a failure of
    [connectMetaMask] is swallowed. *)
Definition autoConnectEffect (autoConnect : bool) (env : Env) : M unit :=
  if negb autoConnect then ret tt
  else
    let* last := localStorage_getItem lastConnectorKey in
    match last with
    | Some last =>
        if String.eqb last "metamask"
        then try_catch (connectMetaMask env) (fun _ => ret tt)
        else ret tt
    | None => ret tt
    end.

(** [WalletActions], as the closures of one render. *)
Record WalletActions := {
  act_connectMetaMask : Env -> M unit;
  act_connectGuest : Env -> Hex -> string -> M unit;
  act_disconnect : M unit;
  act_refreshNetwork : Env -> M unit;
  act_switchChain : Env -> ChainConfig -> M unit;
  act_addChain : Env -> ChainConfig -> M unit
}.

(** [WalletState & WalletActions], the value of the context. *)
Record WalletContextValue := {
  ctx_state : WalletState;
  ctx_actions : WalletActions
}.

(** The [value] the provider of a render with state [state] passes down. *)
Definition value (state : WalletState) : WalletContextValue := {|
  ctx_state := state;
  ctx_actions := {|
    act_connectMetaMask := connectMetaMask;
    act_connectGuest := connectGuest;
    act_disconnect := disconnect;
    act_refreshNetwork := refreshNetwork state;
    act_switchChain := switchChain state;
    act_addChain := addChain
  |}
|}.

(** ** The hooks *)

(** What [useSigner] returns. *)
Record UseSigner := {
  us_status : Status;
  us_signer : option Signer;
  us_connectMetaMask : Env -> M unit;
  us_connectGuest : Env -> Hex -> string -> M unit;
  us_disconnect : M unit
}.

Definition useSigner (ctx : option WalletContextValue) : Result UseSigner :=
  match ctx with
  | None => Throw (Error "WalletProvider is missing")
  | Some ctx =>
      Ok {| us_status := status (ctx_state ctx);
            us_signer := signer (ctx_state ctx);
            us_connectMetaMask := act_connectMetaMask (ctx_actions ctx);
            us_connectGuest := act_connectGuest (ctx_actions ctx);
            us_disconnect := act_disconnect (ctx_actions ctx) |}
  end.

(** What [useAddress] returns. *)
Record UseAddress := {
  address : option Hex;
  isConnected : bool
}.

Definition useAddress (ctx : option WalletContextValue) : Result UseAddress :=
  match ctx with
  | None => Throw (Error "WalletProvider is missing")
  | Some ctx =>
      Ok {| address := account (ctx_state ctx);
            isConnected :=
              match status (ctx_state ctx) with
              | connected => true
              | _ => false
              end |}
  end.

(** What [useNetwork] returns. *)
Record UseNetwork := {
  un_chainId : option Z;
  un_chain : option ChainConfig;
  un_connector : option ConnectorName;
  refresh : Env -> M unit;
  switchNetwork : Env -> ChainConfig -> M unit;
  addNetwork : Env -> ChainConfig -> M unit
}.

Definition useNetwork (ctx : option WalletContextValue) : Result UseNetwork :=
  match ctx with
  | None => Throw (Error "WalletProvider is missing")
  | Some ctx =>
      Ok {| un_chainId := chainId (ctx_state ctx);
            un_chain := chain (ctx_state ctx);
            un_connector := connector (ctx_state ctx);
            refresh := act_refreshNetwork (ctx_actions ctx);
            switchNetwork := fun env target => act_switchChain (ctx_actions ctx) env target;
            addNetwork := fun env params => act_addChain (ctx_actions ctx) env params |}
  end.

(** ** Histories of the session *)

(** One thing that happens to the provider: a consumer calls an action
    of the current render, the injected wallet emits an event, or the
    auto-connect effect runs. *)
Inductive Step :=
| call_connectMetaMask
| call_connectGuest (privKey : Hex) (rpcUrl : string)
| call_disconnect
| call_refreshNetwork
| call_switchChain (target : ChainConfig)
| call_addChain (params : ChainConfig)
| injected_emits (ev : Event)
| effect_autoConnect (autoConnect : bool).

(** The step runs to its end against the answers [env] before the next
    one starts, and actions are taken from the context value of the
    current state.  Steps that overlap (an action suspended at an [await]
    while another one commits) are not histories of [run]; the states
    they can leave are those of [session_state] below. *)
Definition run (st : Step) (env : Env) : M unit :=
  fun w =>
    let actions := ctx_actions (value (current w)) in
    match st with
    | call_connectMetaMask => act_connectMetaMask actions env w
    | call_connectGuest privKey rpcUrl => act_connectGuest actions env privKey rpcUrl w
    | call_disconnect => act_disconnect actions w
    | call_refreshNetwork => act_refreshNetwork actions env w
    | call_switchChain target => act_switchChain actions env target w
    | call_addChain params => act_addChain actions env params w
    | injected_emits ev => emit env ev w
    | effect_autoConnect autoConnect => autoConnectEffect autoConnect env w
    end.

(** The world at mount: the initial state, whatever [localStorage] holds,
    nothing registered, nothing sent. *)
Definition mount (storage : gmap string string) : World := {|
  current := initialState;
  localStorage := storage;
  listeners := [];
  requests := []
|}.

(** The worlds a history of steps, one after the other, leads to,
    whatever the outside answers. *)
Inductive reachable : World -> Prop :=
| reachable_mount storage : reachable (mount storage)
| reachable_run w st env : reachable w -> reachable (snd (run st env w)).

(** A signature depends on the key and the message only. *)
Variable signWithKey : Hex -> string -> string.

(** [wallet.signMessage(message)] *)
Definition signMessage (w : Wallet) (msg : string) : string :=
  signWithKey (privateKey w) msg.

(** The world [w] after the requests [rs] went out through [eth.request]. *)
Definition sent (rs : list RpcRequest) (w : World) : World := {|
  current := current w;
  localStorage := localStorage w;
  listeners := listeners w;
  requests := requests w ++ rs
|}.

(** The world [w] with [s] in the state cell. *)
Definition committed (s : WalletState) (w : World) : World := {|
  current := s;
  localStorage := localStorage w;
  listeners := listeners w;
  requests := requests w
|}.

(** ** Invariants of the state cell *)

(** [c] keeps [P] true of the current state. *)
Definition preserves {A} (P : WalletState -> Prop) (c : M A) : Prop :=
  forall w, P (current w) -> P (current (snd (c w))).

(** [P] survives each of the updates the provider passes to [setState]:
    the two status flips, the two commits of a connect, the reset, the
    account and chain updates and the re-binding of a guest wallet. *)
Record stable (P : WalletState -> Prop) : Prop := {
  stable_initial : P initialState;
  stable_connecting : forall s, P s -> P (with_status connecting s);
  stable_disconnected : forall s, P s -> P (with_status disconnected s);
  stable_account : forall a s, P s -> P (with_account a s);
  stable_chain : forall c s,
    P s -> P (with_chain (Some c) (resolveChain (Some c)) s);
  stable_rebind : forall k p c s,
    isValidPrivateKey k = true ->
    P s ->
    P (with_rebind p (WalletSigner {| privateKey := k; wallet_provider := p |})
         (Some c) (resolveChain (Some c)) s);
  stable_metamask : forall sg a c,
    P {| status := connected; connector := Some metamask;
         provider := Some BrowserProvider; signer := Some (JsonRpcSigner sg);
         account := Some a; chainId := Some c;
         chain := resolveChain (Some c) |};
  stable_guest : forall k p c,
    isValidPrivateKey k = true ->
    P {| status := connected; connector := Some guest;
         provider := Some p;
         signer := Some (WalletSigner {| privateKey := k; wallet_provider := p |});
         account := Some (computeAddress k); chainId := Some c;
         chain := resolveChain (Some c) |}
}.

(** [chain] is the directory's entry for [chainId]. *)
Definition chain_derived (s : WalletState) : Prop :=
  chain s = resolveChain (chainId s).

(** A connected session has a signer. *)
Definition connected_signed (s : WalletState) : Prop :=
  status s = connected -> is_Some (signer s).

(** The signer of a guest session is a wallet with a valid key. *)
Definition guest_wallet (s : WalletState) : Prop :=
  connector s = Some guest ->
  exists wl, signer s = Some (WalletSigner wl) /\ isValidPrivateKey (privateKey wl) = true.

(** ** Invariants of the world *)

(** The string [localStorage] keeps for a connector. *)
Definition connectorName (c : ConnectorName) : string :=
  match c with
  | metamask => "metamask"
  | guest => "guest"
  end.

(** The two handlers one [connectMetaMask] registers. *)
Definition injected_handlers : list Listener := [onAccounts; onChain BrowserProvider].

Definition is_onAccounts (l : Listener) : bool :=
  match l with
  | onAccounts => true
  | onChain _ => false
  end.

Definition is_onChain (l : Listener) : bool :=
  match l with
  | onAccounts => false
  | onChain _ => true
  end.

(** The handles of the session are those of its connector, and the
    persisted record names it. *)
Definition connector_coherent (w : World) : Prop :=
  match connector (current w) with
  | None =>
      provider (current w) = None /\
      signer (current w) = None /\
      status (current w) <> connected
  | Some metamask =>
      provider (current w) = Some BrowserProvider /\
      (exists a, signer (current w) = Some (JsonRpcSigner a)) /\
      localStorage w !! lastConnectorKey = Some "metamask"
  | Some guest =>
      (exists k url,
         provider (current w) = Some (JsonRpcProvider url) /\
         signer (current w) =
           Some (WalletSigner {| privateKey := k;
                                 wallet_provider := JsonRpcProvider url |}) /\
         isValidPrivateKey k = true) /\
      localStorage w !! lastConnectorKey = Some "guest"
  end.

(** The registered handlers are [n] copies of the pair of
    [bindInjectedEvents]. *)
Definition handler_pairs (n : nat) : list Listener :=
  concat (repeat injected_handlers n).

Definition coherent (w : World) : Prop :=
  connector_coherent w /\ exists n, listeners w = handler_pairs n.

(** [s'] differs from [s] in account, chain id and chain at most. *)
Definition same_session (s s' : WalletState) : Prop :=
  status s' = status s /\
  connector s' = connector s /\
  provider s' = provider s /\
  signer s' = signer s.

(** [w'] is [w] up to account, chain id, chain and the requests sent. *)
Definition same_bindings (w w' : World) : Prop :=
  same_session (current w) (current w') /\
  localStorage w' = localStorage w /\
  listeners w' = listeners w.

(** [c] changes account, chain id, chain and the requests sent at most. *)
Definition framed {A} (c : M A) : Prop :=
  forall w, same_bindings w (snd (c w)).

(** The states the cell can hold when actions and handlers overlap in any
    way: every [setState] of the provider is one of these updates, applied
    to whatever the cell holds at that moment. *)
Inductive session_state : WalletState -> Prop :=
| session_initial : session_state initialState
| session_connecting s :
    session_state s -> session_state (with_status connecting s)
| session_disconnected s :
    session_state s -> session_state (with_status disconnected s)
| session_account a s :
    session_state s -> session_state (with_account a s)
| session_chain c s :
    session_state s ->
    session_state (with_chain (Some c) (resolveChain (Some c)) s)
| session_rebind k p c s :
    isValidPrivateKey k = true ->
    session_state s ->
    session_state
      (with_rebind p (WalletSigner {| privateKey := k; wallet_provider := p |})
         (Some c) (resolveChain (Some c)) s)
| session_metamask sg a c :
    session_state
      {| status := connected; connector := Some metamask;
         provider := Some BrowserProvider; signer := Some (JsonRpcSigner sg);
         account := Some a; chainId := Some c;
         chain := resolveChain (Some c) |}
| session_guest k p c :
    isValidPrivateKey k = true ->
    session_state
      {| status := connected; connector := Some guest;
         provider := Some p;
         signer := Some (WalletSigner {| privateKey := k; wallet_provider := p |});
         account := Some (computeAddress k); chainId := Some c;
         chain := resolveChain (Some c) |}.

(** Provider and signer come together and fit each other, a guest
    session has a wallet, and a connected session has all three handles. *)
Definition handles_agree (s : WalletState) : Prop :=
  (is_Some (provider s) <-> is_Some (signer s)) /\
  (forall a, signer s = Some (JsonRpcSigner a) -> provider s = Some BrowserProvider) /\
  (forall wl,
     signer s = Some (WalletSigner wl) ->
     provider s = Some (wallet_provider wl) /\
     isValidPrivateKey (privateKey wl) = true) /\
  (connector s = Some guest -> exists wl, signer s = Some (WalletSigner wl)) /\
  (status s = connected ->
     is_Some (connector s) /\ is_Some (provider s) /\ is_Some (signer s)).






(** The status is one the provider writes. *)
Definition status_written (s : WalletState) : Prop := status s <> locked.

(** ** Sample data *)

Definition polygon : ChainConfig := {|
  chain_id := 137; chain_name := "Polygon"; rpcUrls := ["https://rpc.b"];
  icon := None; nativeCurrency := None; blockExplorers := None
|}.

Definition polygon_without_rpc : ChainConfig := {|
  chain_id := 137; chain_name := "Polygon"; rpcUrls := [];
  icon := None; nativeCurrency := None; blockExplorers := None
|}.

Definition polygon_blank_rpc : ChainConfig := {|
  chain_id := 137; chain_name := "Polygon"; rpcUrls := [EmptyString];
  icon := None; nativeCurrency := None; blockExplorers := None
|}.

Definition mainnet : ChainConfig := {|
  chain_id := 1; chain_name := "Ethereum"; rpcUrls := ["https://rpc.a"];
  icon := None; nativeCurrency := None; blockExplorers := None
|}.

Definition userRejected : JsError :=
  {| code := Some 4001; message := "User rejected the request." |}.

Definition unrecognizedChain : JsError :=
  {| code := Some 4902; message := "Unrecognized chain ID" |}.

Definition networkDown : JsError := Error "could not detect network".

(** An injected wallet that grants everything and reports chain [c]. *)
Definition env_granting (c : Z) : Env := {|
  ethereum := Some {| eth_request := Some (fun _ => Ok tt); eth_on := true |};
  send_eth_requestAccounts := Ok tt;
  getSigner := Ok "0xa11ce";
  jsonRpcSigner_getAddress := fun a => Ok a;
  getNetwork := fun _ => Ok c
|}.

(** An injected wallet whose user rejects the account request. *)
Definition env_rejecting : Env := {|
  ethereum := Some {| eth_request := Some (fun _ => Ok tt); eth_on := true |};
  send_eth_requestAccounts := Throw userRejected;
  getSigner := Ok "0xa11ce";
  jsonRpcSigner_getAddress := fun a => Ok a;
  getNetwork := fun _ => Ok 1
|}.

(** A [request] method that rejects every switch request with [err] and
    grants every add request. *)
Definition request_rejecting_switch (err : JsError) (r : RpcRequest) : Result unit :=
  match r with
  | wallet_switchEthereumChain _ => Throw err
  | wallet_addEthereumChain _ => Ok tt
  end.

Definition wallet_rejecting_switch (err : JsError) : Ethereum :=
  {| eth_request := Some (request_rejecting_switch err); eth_on := true |}.

(** An injected wallet that rejects switch requests with [err] and reports
    chain [c]. *)
Definition env_switch_rejected (err : JsError) (c : Z) : Env := {|
  ethereum := Some (wallet_rejecting_switch err);
  send_eth_requestAccounts := Ok tt;
  getSigner := Ok "0xa11ce";
  jsonRpcSigner_getAddress := fun a => Ok a;
  getNetwork := fun _ => Ok c
|}.

(** An injected wallet that does not know the chain asked for, accepts
    to add it, and reports chain [c]. *)
Definition env_unknown_chain (c : Z) : Env := env_switch_rejected unrecognizedChain c.

(** No injected wallet; every RPC endpoint reports chain [c]. *)
Definition env_rpc (c : Z) : Env := {|
  ethereum := None;
  send_eth_requestAccounts := Throw (Error "no wallet");
  getSigner := Throw (Error "no wallet");
  jsonRpcSigner_getAddress := fun _ => Throw (Error "no wallet");
  getNetwork := fun _ => Ok c
|}.

(** No injected wallet and no RPC endpoint answers. *)
Definition env_offline : Env := {|
  ethereum := None;
  send_eth_requestAccounts := Throw (Error "no wallet");
  getSigner := Throw (Error "no wallet");
  jsonRpcSigner_getAddress := fun _ => Throw (Error "no wallet");
  getNetwork := fun _ => Throw networkDown
|}.

(** A directory of two chains, a key check that accepts every string and
    an address function, to run the provider on. *)
Definition directory : list ChainConfig := [mainnet; polygon].
Definition anyKey : Hex -> bool := fun _ => true.
Definition keyAddress : Hex -> Hex := fun k => "0xaddress-of-" ++ k.
Definition keySignature : Hex -> string -> string := fun k msg => k ++ "/" ++ msg.

(** After [connectGuest] on an endpoint that reports chain 1. *)
Definition guest_world : World :=
  snd (run (call_connectGuest "0x0123" "https://rpc.a") (env_rpc 1) (mount ∅)).

(** After [connectGuest] on an endpoint that reports chain 5, which the
    directory does not list. *)
Definition unlisted_world : World :=
  snd (run (call_connectGuest "0x0123" "https://rpc.c") (env_rpc 5) (mount ∅)).

(** After [connectGuest] on an endpoint that reports chain 137. *)
Definition polygon_world : World :=
  snd (run (call_connectGuest "0x0123" "https://rpc.b") (env_rpc 137) (mount ∅)).


(** After [connectMetaMask] on a wallet that grants access on chain 1. *)
Definition injected_world : World :=
  snd (run call_connectMetaMask (env_granting 1) (mount ∅)).

(** ... and then the wallet reports that no account is left. *)
Definition revoked_world : World :=
  snd (run (injected_emits (accountsChanged [])) (env_granting 1) injected_world).

(** After [connectMetaMask] and [disconnect]. *)
Definition left_world : World :=
  snd (run call_disconnect (env_granting 1) injected_world).

(** ** How the monad treats an invariant *)

Lemma preserves_ret {A} P (a : A) : preserves P (ret a).
Proof. intros w H. exact H. Qed.

Lemma preserves_throw {A} P e : preserves P (@throw A e).
Proof. intros w H. exact H. Qed.

Lemma preserves_await {A} P (r : Result A) : preserves P (await r).
Proof. intros w H. exact H. Qed.

Lemma preserves_bind {A B} P (c : M A) (k : A -> M B) :
  preserves P c -> (forall a, preserves P (k a)) -> preserves P (bind c k).
Proof.
  intros Hc Hk w H. unfold bind.
  specialize (Hc w H). destruct (c w) as [[a|e] w1]; simpl in *.
  - now apply Hk.
  - exact Hc.
Qed.

Lemma preserves_try_catch {A} P (c : M A) (h : JsError -> M A) :
  preserves P c -> (forall e, preserves P (h e)) -> preserves P (try_catch c h).
Proof.
  intros Hc Hh w H. unfold try_catch.
  specialize (Hc w H). destruct (c w) as [[a|e] w1]; simpl in *.
  - exact Hc.
  - now apply Hh.
Qed.

Lemma preserves_setState (P : WalletState -> Prop) f :
  (forall s, P s -> P (f s)) -> preserves P (setState f).
Proof. intros Hf w H. simpl. now apply Hf. Qed.

Lemma preserves_setItem P k v : preserves P (localStorage_setItem k v).
Proof. intros w H. exact H. Qed.

Lemma preserves_getItem P k : preserves P (localStorage_getItem k).
Proof. intros w H. exact H. Qed.

Lemma preserves_removeItem P k : preserves P (localStorage_removeItem k).
Proof. intros w H. exact H. Qed.

Lemma preserves_register P l : preserves P (eth_on_register l).
Proof. intros w H. exact H. Qed.

Lemma preserves_request P request r : preserves P (eth_request_send request r).
Proof. intros w H. exact H. Qed.

Lemma preserves_fold P (f : Listener -> M unit) ls :
  (forall l, preserves P (f l)) ->
  forall w, P (current w) ->
    P (current (fold_left (fun w' l => snd (f l w')) ls w)).
Proof.
  intros Hf. induction ls as [|l ls IH]; intros w H; simpl.
  - exact H.
  - apply IH. now apply Hf.
Qed.

Create HintDb preserve.
#[local] Hint Resolve preserves_ret preserves_throw preserves_await
  preserves_setItem preserves_getItem preserves_removeItem
  preserves_register preserves_request : preserve.

(** Splits a computation along its binds and branches. *)
Ltac step_preserve :=
  first
    [ apply preserves_bind; [| intros ?]
    | apply preserves_try_catch; [| intros ?]
    | apply preserves_setState; intros ? ?
    | solve [auto with preserve]
    | match goal with
      | |- preserves _ (match ?x with _ => _ end) => destruct x
      | |- preserves _ (if ?b then _ else _) => destruct b
      | |- preserves _ (let _ := _ in _) => cbv zeta
      end ].

(** ** Every action keeps a stable predicate *)

Section Stable.
Variable P : WalletState -> Prop.
Hypothesis HP : stable P.

Lemma new_Wallet_valid key p wl :
  new_Wallet key p = Ok wl ->
  wl = {| privateKey := privateKey wl; wallet_provider := p |} /\
  isValidPrivateKey (privateKey wl) = true /\
  key = Some (privateKey wl).
Proof.
  unfold new_Wallet. destruct key as [k|]; [|discriminate].
  destruct (isValidPrivateKey k) eqn:Hk; [|discriminate].
  intros [= <-]. simpl. auto.
Qed.

Lemma stable_bindInjectedEvents eth p : preserves P (bindInjectedEvents eth p).
Proof. unfold bindInjectedEvents. repeat step_preserve. Qed.

Lemma stable_handle env ev l : preserves P (handle env ev l).
Proof.
  unfold handle. repeat step_preserve.
  - now apply stable_account.
  - now apply stable_chain.
Qed.

Lemma stable_emit env ev : preserves P (emit env ev).
Proof.
  intros w H. unfold emit. simpl.
  apply preserves_fold; [|exact H]. intros l. apply stable_handle.
Qed.

Lemma stable_connectMetaMask env : preserves P (connectMetaMask env).
Proof.
  unfold connectMetaMask. repeat step_preserve.
  - now apply stable_connecting.
  - apply stable_bindInjectedEvents.
  - now apply stable_metamask.
  - now apply stable_disconnected.
Qed.

Lemma stable_connectGuest env privKey rpcUrl :
  preserves P (connectGuest env privKey rpcUrl).
Proof.
  unfold connectGuest.
  apply preserves_bind; [apply preserves_setState; intros; now apply stable_connecting|intros _].
  cbv zeta. intros w H. unfold bind at 1, await at 1.
  destruct (new_Wallet (Some privKey) (JsonRpcProvider rpcUrl)) as [wl|e] eqn:Hw; [|exact H].
  apply new_Wallet_valid in Hw. destruct Hw as (Hwl & Hv & [= Hk]).
  revert w H. repeat step_preserve.
  rewrite Hwl. unfold wallet_getAddress. simpl. now apply stable_guest.
Qed.

Lemma stable_disconnect : preserves P disconnect.
Proof. unfold disconnect. repeat step_preserve. exact (stable_initial P HP). Qed.

Lemma stable_refreshNetwork state env : preserves P (refreshNetwork state env).
Proof. unfold refreshNetwork. repeat step_preserve. now apply stable_chain. Qed.

Lemma stable_ensureOnInjected env target : preserves P (ensureOnInjected env target).
Proof. unfold ensureOnInjected. repeat step_preserve. Qed.

Lemma stable_switchChain state env target : preserves P (switchChain state env target).
Proof.
  unfold switchChain.
  destruct (connector state) as [[]|]; [| |apply preserves_throw].
  - apply preserves_bind; [apply stable_ensureOnInjected|intros _; apply stable_refreshNetwork].
  - destruct (rpcUrls target !! 0%nat) as [rpcUrl|]; [|apply preserves_throw].
    destruct (String.eqb rpcUrl EmptyString); [apply preserves_throw|].
    cbv zeta. apply preserves_bind; [apply preserves_await|intros key].
    intros w H. unfold bind at 1, await at 1.
    destruct (new_Wallet key (JsonRpcProvider rpcUrl)) as [wl|e] eqn:Hw; [|exact H].
    apply new_Wallet_valid in Hw. destruct Hw as (Hwl & Hv & _).
    revert w H. repeat step_preserve.
    rewrite Hwl. now apply stable_rebind.
Qed.

Lemma stable_addChain env params : preserves P (addChain env params).
Proof. unfold addChain. repeat step_preserve. Qed.

Lemma stable_autoConnectEffect autoConnect env :
  preserves P (autoConnectEffect autoConnect env).
Proof.
  unfold autoConnectEffect.
  destruct (negb autoConnect); [apply preserves_ret|].
  apply preserves_bind; [apply preserves_getItem|intros [last|]];
    [|apply preserves_ret].
  destruct (String.eqb last "metamask"); [|apply preserves_ret].
  apply preserves_try_catch; [apply stable_connectMetaMask|].
  intros _. apply preserves_ret.
Qed.

Lemma stable_run st env : preserves P (run st env).
Proof.
  intros w H. destruct st.
  - exact (stable_connectMetaMask env w H).
  - exact (stable_connectGuest env privKey rpcUrl w H).
  - exact (stable_disconnect w H).
  - exact (stable_refreshNetwork (current w) env w H).
  - exact (stable_switchChain (current w) env target w H).
  - exact (stable_addChain env params w H).
  - exact (stable_emit env ev w H).
  - exact (stable_autoConnectEffect autoConnect env w H).
Qed.

(** A stable predicate holds of the state of every reachable world. *)
Lemma stable_reachable w : reachable w -> P (current w).
Proof.
  induction 1 as [storage|w st env _ IH].
  - exact (stable_initial P HP).
  - now apply stable_run.
Qed.

End Stable.

(** ** The three invariants *)

Lemma chain_derived_stable : stable chain_derived.
Proof. split; unfold chain_derived; intros; simpl; auto. Qed.

Lemma connected_signed_stable : stable connected_signed.
Proof.
  split; unfold connected_signed; simpl; intros; eauto; discriminate.
Qed.

Lemma guest_wallet_stable : stable guest_wallet.
Proof.
  split; unfold guest_wallet; simpl; intros; eauto; discriminate.
Qed.

(** [find] only returns an entry of the list with the id asked for. *)
Lemma resolveChain_Some c cfg :
  resolveChain c = Some cfg -> In cfg knownChains /\ c = Some (chain_id cfg).
Proof.
  destruct c as [i|]; simpl; [|discriminate].
  intros H. apply find_some in H. destruct H as [Hin Heq].
  apply Z.eqb_eq in Heq. subst. auto.
Qed.

Lemma resolveChain_unknown i :
  (forall cfg, In cfg knownChains -> chain_id cfg <> i) ->
  resolveChain (Some i) = None.
Proof.
  intros H. simpl. destruct (find _ knownChains) as [cfg|] eqn:Hf; [|reflexivity].
  apply find_some in Hf. destruct Hf as [Hin Heq].
  apply Z.eqb_eq in Heq. now apply H in Hin.
Qed.

(** What a connect that returns has committed. *)
Lemma connectMetaMask_Ok env w :
  fst (connectMetaMask env w) = Ok tt ->
  exists sg a c,
    current (snd (connectMetaMask env w)) =
      {| status := connected; connector := Some metamask;
         provider := Some BrowserProvider; signer := Some (JsonRpcSigner sg);
         account := Some a; chainId := Some c;
         chain := resolveChain (Some c) |}.
Proof.
  unfold connectMetaMask, bind, await, bindInjectedEvents. simpl.
  destruct (injected env) as [[eth request]|]; simpl; [|discriminate].
  destruct (send_eth_requestAccounts env) as [[]|]; simpl; [|discriminate].
  destruct (getSigner env) as [sg|]; simpl; [|discriminate].
  destruct (jsonRpcSigner_getAddress env sg) as [a|]; simpl; [|discriminate].
  destruct (getNetwork env BrowserProvider) as [c|]; simpl; [|discriminate].
  intros _. exists sg, a, c. destruct (eth_on eth); reflexivity.
Qed.

Lemma connectGuest_Ok env privKey rpcUrl w :
  fst (connectGuest env privKey rpcUrl w) = Ok tt ->
  exists c,
    isValidPrivateKey privKey = true /\
    getNetwork env (JsonRpcProvider rpcUrl) = Ok c /\
    current (snd (connectGuest env privKey rpcUrl w)) =
      {| status := connected; connector := Some guest;
         provider := Some (JsonRpcProvider rpcUrl);
         signer := Some (WalletSigner {| privateKey := privKey;
                                         wallet_provider := JsonRpcProvider rpcUrl |});
         account := Some (computeAddress privKey); chainId := Some c;
         chain := resolveChain (Some c) |}.
Proof.
  unfold connectGuest, bind, await, new_Wallet. simpl.
  destruct (isValidPrivateKey privKey); simpl; [|discriminate].
  destruct (getNetwork env (JsonRpcProvider rpcUrl)) as [c|]; simpl; [|discriminate].
  intros _. exists c. auto.
Qed.

(** [find] reaches every id that is listed, and stops at the first entry
    that has it. *)
Lemma resolveChain_listed cfg :
  In cfg knownChains ->
  exists found,
    resolveChain (Some (chain_id cfg)) = Some found /\
    chain_id found = chain_id cfg /\ In found knownChains.
Proof.
  intros Hin. simpl.
  destruct (find _ knownChains) as [found|] eqn:Hf.
  - exists found. apply find_some in Hf. destruct Hf as [Hf Heq].
    apply Z.eqb_eq in Heq. auto.
  - exfalso. apply find_none with (x := cfg) in Hf; [|exact Hin].
    rewrite Z.eqb_refl in Hf. discriminate.
Qed.

Lemma resolveChain_first before cfg after :
  knownChains = (before ++ cfg :: after)%list ->
  (forall c, In c before -> chain_id c <> chain_id cfg) ->
  resolveChain (Some (chain_id cfg)) = Some cfg.
Proof.
  intros Hk Hb. unfold resolveChain. rewrite Hk. clear Hk.
  induction before as [|b before IH]; simpl.
  - now rewrite Z.eqb_refl.
  - destruct (Z.eqb_spec (chain_id b) (chain_id cfg)) as [Heq|_].
    + exfalso. apply (Hb b); [now left|exact Heq].
    + apply IH. intros c Hc. apply Hb. now right.
Qed.

(** ** Properties of the session *)

(** C3. After every operation and every notification of the injected
    wallet, that is in every reachable world, [chain] is the entry
    [knownChains.find] gives for the current [chainId].  When there is a
    [chain], it is an entry of the directory with that id; there is no
    [chain] when [chainId] is absent or no entry of the directory has that
    id; and when the directory lists the current [chainId], [chain] is
    present, has that id, and is the first entry of the directory that
    has it. *)
Theorem chain_is_directory_lookup w :
  reachable w ->
  chain (current w) = resolveChain (chainId (current w)) /\
  (forall cfg, chain (current w) = Some cfg ->
     In cfg knownChains /\ chainId (current w) = Some (chain_id cfg)) /\
  (chainId (current w) = None -> chain (current w) = None) /\
  (forall i, chainId (current w) = Some i ->
     (forall cfg, In cfg knownChains -> chain_id cfg <> i) ->
     chain (current w) = None) /\
  (forall cfg,
     In cfg knownChains ->
     chainId (current w) = Some (chain_id cfg) ->
     exists found,
       chain (current w) = Some found /\
       chain_id found = chain_id cfg /\ In found knownChains) /\
  (forall before cfg after,
     knownChains = (before ++ cfg :: after)%list ->
     (forall c, In c before -> chain_id c <> chain_id cfg) ->
     chainId (current w) = Some (chain_id cfg) ->
     chain (current w) = Some cfg).
Proof.
  intros Hr.
  pose proof (stable_reachable chain_derived chain_derived_stable w Hr) as H.
  unfold chain_derived in H. split; [exact H|]. split; [|split; [|split; [|split]]].
  - intros cfg Hc. rewrite H in Hc. now apply resolveChain_Some.
  - intros Hn. rewrite H, Hn. reflexivity.
  - intros i Hi Hno. rewrite H, Hi. now apply resolveChain_unknown.
  - intros cfg Hin Hi. rewrite H, Hi. now apply resolveChain_listed.
  - intros before cfg after Hk Hb Hi. rewrite H, Hi.
    now apply (resolveChain_first before cfg after).
Qed.

(** C2, as amended. In every reachable world a connected session has a
    signer, and a connect that returns leaves the session connected with
    signer and account both present. (An empty accounts-changed list
    clears the account alone, so a connected session may lack one.) *)
Theorem connected_session_has_signer w :
  reachable w ->
  (status (current w) = connected -> is_Some (signer (current w))) /\
  (forall env,
     fst (connectMetaMask env w) = Ok tt ->
     let s := current (snd (connectMetaMask env w)) in
     status s = connected /\ is_Some (signer s) /\ is_Some (account s)) /\
  (forall env privKey rpcUrl,
     fst (connectGuest env privKey rpcUrl w) = Ok tt ->
     let s := current (snd (connectGuest env privKey rpcUrl w)) in
     status s = connected /\ is_Some (signer s) /\ is_Some (account s)).
Proof.
  intros Hr. split; [|split].
  - exact (stable_reachable connected_signed connected_signed_stable w Hr).
  - intros env Hok. destruct (connectMetaMask_Ok env w Hok) as (sg & a & c & ->).
    simpl. eauto.
  - intros env privKey rpcUrl Hok.
    destruct (connectGuest_Ok env privKey rpcUrl w Hok) as (c & _ & _ & ->).
    simpl. eauto.
Qed.

(** C9. [refreshNetwork] returns without touching anything when the
    render it belongs to has no provider; otherwise, once the provider has
    answered with chain id [c], it writes [chainId] and [chain] and leaves
    status, connector, provider, signer and account (and the rest of the
    world) as they are. *)
Theorem refreshNetwork_updates_chain_only state env w :
  (provider state = None -> refreshNetwork state env w = (Ok tt, w)) /\
  (forall p c,
     provider state = Some p ->
     getNetwork env p = Ok c ->
     refreshNetwork state env w =
       (Ok tt, committed (with_chain (Some c) (resolveChain (Some c)) (current w)) w) /\
     let s' := current (snd (refreshNetwork state env w)) in
     chainId s' = Some c /\
     chain s' = resolveChain (Some c) /\
     status s' = status (current w) /\
     connector s' = connector (current w) /\
     provider s' = provider (current w) /\
     signer s' = signer (current w) /\
     account s' = account (current w)).
Proof.
  split.
  - intros Hp. unfold refreshNetwork. rewrite Hp. now destruct w.
  - intros p c Hp Hc. unfold refreshNetwork, bind, await.
    rewrite Hp, Hc. simpl. repeat split.
Qed.

(** C6. On a guest session, [switchChain] with a target whose [rpcUrls]
    is empty throws [RPC_URL_REQUIRED] and leaves the whole world, the
    session with it, as it was. *)
Theorem guest_switch_without_rpcUrl state env target w :
  connector state = Some guest ->
  rpcUrls target = [] ->
  switchChain state env target w = (Throw (Error "RPC_URL_REQUIRED"), w).
Proof.
  intros Hc Hu. unfold switchChain. rewrite Hc, Hu. reflexivity.
Qed.

(** C7, as amended. [disconnect] always returns, removes the persisted
    connector and puts the initial state in the cell; the handlers
    registered on the injected wallet stay registered. *)
Theorem disconnect_resets_state_keeps_listeners w :
  disconnect w =
    (Ok tt, {| current := initialState;
               localStorage := delete lastConnectorKey (localStorage w);
               listeners := listeners w;
               requests := requests w |}).
Proof. reflexivity. Qed.

(** C8. From any world, [disconnect] twice in a row returns both times,
    leaves the initial state in the cell after each call and no
    last-connector entry in [localStorage] after each call; the second
    call changes nothing. *)
Theorem disconnect_twice w :
  let r1 := disconnect w in
  let r2 := disconnect (snd r1) in
  fst r1 = Ok tt /\
  current (snd r1) = initialState /\
  localStorage (snd r1) !! lastConnectorKey = None /\
  fst r2 = Ok tt /\
  current (snd r2) = initialState /\
  localStorage (snd r2) !! lastConnectorKey = None /\
  snd r2 = snd r1.
Proof.
  simpl. repeat split.
  - apply lookup_delete_eq.
  - rewrite !lookup_delete_eq. reflexivity.
  - f_equal. apply delete_id. apply lookup_delete_eq.
Qed.

(** C10. Without a [WalletProvider] above, where the context value is
    [null], each of the three hooks throws an error with the message
    "WalletProvider is missing"; with one, each returns. *)
Theorem hooks_throw_without_provider :
  useSigner None = Throw (Error "WalletProvider is missing") /\
  useAddress None = Throw (Error "WalletProvider is missing") /\
  useNetwork None = Throw (Error "WalletProvider is missing") /\
  (forall ctx, exists r, useSigner (Some ctx) = Ok r) /\
  (forall ctx, exists r, useAddress (Some ctx) = Ok r) /\
  (forall ctx, exists r, useNetwork (Some ctx) = Ok r).
Proof. repeat split; intros; eexists; reflexivity. Qed.

(** C4, as amended. On a render whose connector is the injected one,
    when the wallet rejects [wallet_switchEthereumChain] with [err]:
    if [err] has code 4902 and [target.rpcUrls] is not empty,
    [wallet_addEthereumChain] is sent with the chain id, name and RPC
    URLs of [target], its native currency or ETH/ETH/18, and its
    explorer URLs or the empty list; when that request is granted the
    call goes on as [refreshNetwork], when it is rejected its error is
    thrown.  With code 4902 and an empty [rpcUrls], or with any other
    code, [err] itself is thrown and nothing more is sent. *)
Theorem injected_switch_falls_back_to_add state env target eth request err w :
  connector state = Some metamask ->
  injected env = Some (eth, request) ->
  request (wallet_switchEthereumChain (hexChainId (chain_id target))) = Throw err ->
  let switch := wallet_switchEthereumChain (hexChainId (chain_id target)) in
  let add := wallet_addEthereumChain {|
    p_chainId := hexChainId (chain_id target);
    p_chainName := chain_name target;
    p_rpcUrls := rpcUrls target;
    p_nativeCurrency :=
      match nativeCurrency target with
      | Some currency => currency
      | None => {| nc_name := "ETH"; nc_symbol := "ETH"; nc_decimals := 18 |}
      end;
    p_blockExplorerUrls :=
      match blockExplorers target with
      | Some explorers => map be_url explorers
      | None => []
      end |} in
  (code err = Some 4902 -> rpcUrls target <> [] ->
     match request add with
     | Ok _ =>
         switchChain state env target w = refreshNetwork state env (sent [switch; add] w)
     | Throw err' =>
         switchChain state env target w = (Throw err', sent [switch; add] w)
     end) /\
  (code err = Some 4902 -> rpcUrls target = [] ->
     switchChain state env target w = (Throw err, sent [switch] w)) /\
  (code err <> Some 4902 ->
     switchChain state env target w = (Throw err, sent [switch] w)).
Proof.
  intros Hc Hinj Hreq switch add.
  assert (Hadd : wallet_addEthereumChain (addEthereumChainParams target) = add).
  { unfold add, addEthereumChainParams.
    destruct (nativeCurrency target), (blockExplorers target); reflexivity. }
  unfold switchChain. rewrite Hc.
  unfold ensureOnInjected. rewrite Hinj.
  subst switch. unfold bind, try_catch, eth_request_send. rewrite Hreq, Hadd.
  split; [|split].
  - intros H4902 Hurls. unfold is4902. rewrite H4902. simpl.
    destruct (rpcUrls target) as [|u us]; [contradiction|]. simpl.
    unfold sent. simpl. rewrite <- app_assoc. simpl.
    destruct (request add) as [[]|err']; reflexivity.
  - intros H4902 Hurls. unfold is4902. rewrite H4902, Hurls. reflexivity.
  - intros Hne. unfold is4902.
    destruct (code err) as [n|]; [|reflexivity].
    destruct (Z.eqb_spec n 4902) as [->|_]; [contradiction|reflexivity].
Qed.

(** C5, as amended. On a reachable guest session, for a target whose
    first RPC URL is a non-empty string and whose endpoint reports chain
    id [c], [switchChain] returns with a wallet made of the private key
    of the previous wallet and a provider on that URL: the new wallet
    signs every message as the previous one did, the account is
    untouched, and the committed [chainId] is [c], the one read from the
    new provider, whatever [target.id] says. *)
Theorem guest_switch_keeps_key w env target rpcUrl c :
  reachable w ->
  connector (current w) = Some guest ->
  rpcUrls target !! 0%nat = Some rpcUrl ->
  rpcUrl <> EmptyString ->
  getNetwork env (JsonRpcProvider rpcUrl) = Ok c ->
  exists prev,
    signer (current w) = Some (WalletSigner prev) /\
    let next := {| privateKey := privateKey prev;
                   wallet_provider := JsonRpcProvider rpcUrl |} in
    switchChain (current w) env target w =
      (Ok tt, committed (with_rebind (JsonRpcProvider rpcUrl) (WalletSigner next)
                           (Some c) (resolveChain (Some c)) (current w)) w) /\
    (forall msg, signMessage next msg = signMessage prev msg) /\
    let s' := current (snd (switchChain (current w) env target w)) in
    signer s' = Some (WalletSigner next) /\
    account s' = account (current w) /\
    chainId s' = Some c.
Proof.
  intros Hr Hg Hurl Hne Hnet.
  destruct (stable_reachable guest_wallet guest_wallet_stable w Hr Hg)
    as (prev & Hs & Hv).
  exists prev. split; [exact Hs|]. cbv zeta.
  assert (Hrun : switchChain (current w) env target w =
    (Ok tt, committed (with_rebind (JsonRpcProvider rpcUrl)
              (WalletSigner {| privateKey := privateKey prev;
                               wallet_provider := JsonRpcProvider rpcUrl |})
              (Some c) (resolveChain (Some c)) (current w)) w)).
  { unfold switchChain. rewrite Hg, Hurl.
    destruct (String.eqb_spec rpcUrl EmptyString) as [->|_]; [contradiction|].
    unfold bind, await, prevWallet_privateKey, new_Wallet.
    rewrite Hs. simpl. rewrite Hv, Hnet. reflexivity. }
  rewrite Hrun. simpl. repeat split.
Qed.

(** What a connect that throws leaves behind: the state it found, with
    the status [disconnected] when no injected wallet was there and
    [connecting] in every other case. *)
Lemma connectMetaMask_Throw env w e :
  fst (connectMetaMask env w) = Throw e ->
  snd (connectMetaMask env w) =
    committed (with_status match injected env with
                           | Some _ => connecting
                           | None => disconnected
                           end (current w)) w.
Proof.
  unfold connectMetaMask, bind, await, bindInjectedEvents. simpl.
  destruct (injected env) as [[eth request]|]; simpl; [|reflexivity].
  destruct (send_eth_requestAccounts env) as [[]|]; simpl; [|reflexivity].
  destruct (getSigner env) as [sg|]; simpl; [|reflexivity].
  destruct (jsonRpcSigner_getAddress env sg) as [a|]; simpl; [|reflexivity].
  destruct (getNetwork env BrowserProvider) as [c|]; simpl; [|reflexivity].
  destruct (eth_on eth); discriminate.
Qed.

Lemma connectGuest_Throw env privKey rpcUrl w e :
  fst (connectGuest env privKey rpcUrl w) = Throw e ->
  snd (connectGuest env privKey rpcUrl w) =
    committed (with_status connecting (current w)) w.
Proof.
  unfold connectGuest, bind, await, new_Wallet. simpl.
  destruct (isValidPrivateKey privKey); simpl; [|reflexivity].
  destruct (getNetwork env (JsonRpcProvider rpcUrl)) as [c|]; simpl; [|reflexivity].
  discriminate.
Qed.

(** C1, on the code. When the user rejects the account request,
    [connectMetaMask] rethrows the rejection and leaves the status at
    [connecting]; when the RPC endpoint does not answer, [connectGuest]
    rethrows and leaves the status at [connecting] as well.  Only the
    check for a missing injected wallet puts [disconnected] back. *)
Theorem failed_connect_stays_connecting w privKey rpcUrl :
  isValidPrivateKey privKey = true ->
  (connectMetaMask env_rejecting w =
     (Throw userRejected, committed (with_status connecting (current w)) w)) /\
  (connectGuest env_offline privKey rpcUrl w =
     (Throw networkDown, committed (with_status connecting (current w)) w)) /\
  (connectMetaMask env_offline w =
     (Throw (Error "METAMASK_NOT_FOUND"),
      committed (with_status disconnected (current w)) w)).
Proof.
  intros Hv. split; [|split].
  - reflexivity.
  - unfold connectGuest, bind, await, new_Wallet. simpl. rewrite Hv. reflexivity.
  - reflexivity.
Qed.

(** ** What the events and the network actions leave alone *)

Lemma same_bindings_refl w : same_bindings w w.
Proof. repeat split. Qed.

Lemma same_bindings_trans w1 w2 w3 :
  same_bindings w1 w2 -> same_bindings w2 w3 -> same_bindings w1 w3.
Proof.
  intros ((A1 & A2 & A3 & A4) & A5 & A6) ((B1 & B2 & B3 & B4) & B5 & B6).
  repeat split; congruence.
Qed.

Lemma framed_ret {A} (a : A) : framed (ret a).
Proof. intros w. apply same_bindings_refl. Qed.

Lemma framed_throw {A} e : framed (@throw A e).
Proof. intros w. apply same_bindings_refl. Qed.

Lemma framed_await {A} (r : Result A) : framed (await r).
Proof. intros w. apply same_bindings_refl. Qed.

Lemma framed_request request r : framed (eth_request_send request r).
Proof. intros w. repeat split. Qed.

Lemma framed_bind {A B} (c : M A) (k : A -> M B) :
  framed c -> (forall a, framed (k a)) -> framed (bind c k).
Proof.
  intros Hc Hk w. unfold bind. specialize (Hc w).
  destruct (c w) as [[a|e] w1]; simpl in *; [|exact Hc].
  eapply same_bindings_trans; [exact Hc|apply Hk].
Qed.

Lemma framed_try_catch {A} (c : M A) (h : JsError -> M A) :
  framed c -> (forall e, framed (h e)) -> framed (try_catch c h).
Proof.
  intros Hc Hh w. unfold try_catch. specialize (Hc w).
  destruct (c w) as [[a|e] w1]; simpl in *; [exact Hc|].
  eapply same_bindings_trans; [exact Hc|apply Hh].
Qed.

Lemma framed_with_account a : framed (setState (with_account a)).
Proof. intros w. repeat split. Qed.

Lemma framed_with_chain c cfg : framed (setState (with_chain c cfg)).
Proof. intros w. repeat split. Qed.

Lemma framed_handle env ev l : framed (handle env ev l).
Proof.
  destruct ev, l; simpl; try apply framed_ret.
  - apply framed_with_account.
  - apply framed_bind; [apply framed_await|intros c; apply framed_with_chain].
Qed.

Lemma framed_emit env ev : framed (emit env ev).
Proof.
  intros w. unfold emit. simpl.
  generalize (listeners w) as ls. intros ls. generalize (same_bindings_refl w).
  generalize w at 2 4 as w'. revert w.
  induction ls as [|l ls IH]; intros w w' H; simpl; [exact H|].
  apply IH. eapply same_bindings_trans; [exact H|apply framed_handle].
Qed.

Lemma framed_refreshNetwork state env : framed (refreshNetwork state env).
Proof.
  unfold refreshNetwork. destruct (provider state); [|apply framed_ret].
  apply framed_bind; [apply framed_await|intros c; apply framed_with_chain].
Qed.

Lemma framed_ensureOnInjected env target : framed (ensureOnInjected env target).
Proof.
  unfold ensureOnInjected. destruct (injected env) as [[eth request]|];
    [|apply framed_throw].
  apply framed_try_catch; [apply framed_request|intros err].
  destruct (_ && _); [apply framed_request|apply framed_throw].
Qed.

Lemma framed_addChain env params : framed (addChain env params).
Proof.
  unfold addChain. destruct (injected env) as [[eth request]|];
    [apply framed_request|apply framed_throw].
Qed.

(** ** The worlds the connects leave *)

Lemma connectMetaMask_Ok_world env w :
  fst (connectMetaMask env w) = Ok tt ->
  exists eth request sg a c,
    injected env = Some (eth, request) /\
    getSigner env = Ok sg /\
    jsonRpcSigner_getAddress env sg = Ok a /\
    getNetwork env BrowserProvider = Ok c /\
    snd (connectMetaMask env w) =
      {| current :=
           {| status := connected; connector := Some metamask;
              provider := Some BrowserProvider; signer := Some (JsonRpcSigner sg);
              account := Some a; chainId := Some c;
              chain := resolveChain (Some c) |};
         localStorage := <[lastConnectorKey := "metamask"]> (localStorage w);
         listeners := listeners w ++ (if eth_on eth then injected_handlers else []);
         requests := requests w |}.
Proof.
  unfold connectMetaMask, bind, await, bindInjectedEvents. simpl.
  destruct (injected env) as [[eth request]|]; simpl; [|discriminate].
  destruct (send_eth_requestAccounts env) as [[]|]; simpl; [|discriminate].
  destruct (getSigner env) as [sg|]; simpl; [|discriminate].
  destruct (jsonRpcSigner_getAddress env sg) as [a|] eqn:Ha; simpl; [|discriminate].
  destruct (getNetwork env BrowserProvider) as [c|]; simpl; [|discriminate].
  intros _. exists eth, request, sg, a, c. repeat split; [exact Ha|].
  destruct (eth_on eth); simpl.
  - rewrite <- app_assoc. reflexivity.
  - rewrite app_nil_r. reflexivity.
Qed.

Lemma connectGuest_Ok_world env privKey rpcUrl w :
  fst (connectGuest env privKey rpcUrl w) = Ok tt ->
  exists c,
    isValidPrivateKey privKey = true /\
    getNetwork env (JsonRpcProvider rpcUrl) = Ok c /\
    snd (connectGuest env privKey rpcUrl w) =
      {| current :=
           {| status := connected; connector := Some guest;
              provider := Some (JsonRpcProvider rpcUrl);
              signer := Some (WalletSigner {| privateKey := privKey;
                                              wallet_provider := JsonRpcProvider rpcUrl |});
              account := Some (computeAddress privKey); chainId := Some c;
              chain := resolveChain (Some c) |};
         localStorage := <[lastConnectorKey := "guest"]> (localStorage w);
         listeners := listeners w;
         requests := requests w |}.
Proof.
  unfold connectGuest, bind, await, new_Wallet. simpl.
  destruct (isValidPrivateKey privKey); simpl; [|discriminate].
  destruct (getNetwork env (JsonRpcProvider rpcUrl)) as [c|]; simpl; [|discriminate].
  intros _. exists c. auto.
Qed.

(** A guest switch either throws before it writes, or re-binds. *)
Lemma switchChain_guest_cases state env target w :
  connector state = Some guest ->
  (exists e, switchChain state env target w = (Throw e, w)) \/
  (exists k url c,
     signer state = Some (WalletSigner k) /\
     isValidPrivateKey (privateKey k) = true /\
     rpcUrls target !! 0%nat = Some url /\
     getNetwork env (JsonRpcProvider url) = Ok c /\
     switchChain state env target w =
       (Ok tt,
        committed (with_rebind (JsonRpcProvider url)
                     (WalletSigner {| privateKey := privateKey k;
                                      wallet_provider := JsonRpcProvider url |})
                     (Some c) (resolveChain (Some c)) (current w)) w)).
Proof.
  intros Hg. unfold switchChain. rewrite Hg.
  destruct (rpcUrls target !! 0%nat) as [url|]; [|left; eexists; reflexivity].
  destruct (String.eqb url EmptyString); [left; eexists; reflexivity|].
  unfold bind, await, prevWallet_privateKey, new_Wallet.
  destruct (signer state) as [[a|k]|]; simpl; try (left; eexists; reflexivity).
  destruct (isValidPrivateKey (privateKey k)) eqn:Hv; simpl;
    [|left; eexists; reflexivity].
  destruct (getNetwork env (JsonRpcProvider url)) as [c|] eqn:Hc; simpl;
    [|left; eexists; reflexivity].
  right. exists k, url, c. repeat split; auto.
Qed.

Lemma handler_pairs_S n :
  (handler_pairs n ++ injected_handlers)%list = handler_pairs (S n).
Proof.
  unfold handler_pairs. induction n as [|n IH]; [reflexivity|].
  change (concat (repeat injected_handlers (S n)))
    with (injected_handlers ++ concat (repeat injected_handlers n))%list.
  change (concat (repeat injected_handlers (S (S n))))
    with (injected_handlers ++ concat (repeat injected_handlers (S n)))%list.
  rewrite <- app_assoc, IH. reflexivity.
Qed.

(** ** Every step keeps the world coherent *)

Lemma coherent_mount storage : coherent (mount storage).
Proof.
  split; [|exists 0%nat; reflexivity].
  unfold connector_coherent. simpl. repeat split. discriminate.
Qed.

Lemma coherent_same_bindings w w' :
  same_bindings w w' -> coherent w -> coherent w'.
Proof.
  intros ((H1 & H2 & H3 & H4) & H5 & H6) [Hc Hl]. split.
  - unfold connector_coherent in *. rewrite H2, H3, H4, H1, H5. exact Hc.
  - rewrite H6. exact Hl.
Qed.

Lemma coherent_with_status st w :
  st <> connected -> coherent w -> coherent (committed (with_status st (current w)) w).
Proof.
  intros Hst [Hc Hl]. split; [|exact Hl].
  unfold connector_coherent in *. simpl.
  destruct (connector (current w)) as [[]|]; [exact Hc|exact Hc|].
  destruct Hc as (Hp & Hs & _). auto.
Qed.

Lemma coherent_connectMetaMask env w :
  coherent w -> coherent (snd (connectMetaMask env w)).
Proof.
  intros H. destruct (fst (connectMetaMask env w)) as [[]|e] eqn:Hr.
  - destruct (connectMetaMask_Ok_world env w Hr)
      as (eth & request & sg & a & c & _ & _ & _ & _ & ->).
    destruct H as [_ [n Hl]]. split.
    + unfold connector_coherent. simpl. repeat split; eauto.
      apply lookup_insert_eq.
    + simpl. rewrite Hl. destruct (eth_on eth).
      * exists (S n). apply handler_pairs_S.
      * exists n. apply app_nil_r.
  - rewrite (connectMetaMask_Throw env w e Hr).
    apply coherent_with_status; [|exact H].
    destruct (injected env); discriminate.
Qed.

Lemma coherent_connectGuest env privKey rpcUrl w :
  coherent w -> coherent (snd (connectGuest env privKey rpcUrl w)).
Proof.
  intros H. destruct (fst (connectGuest env privKey rpcUrl w)) as [[]|e] eqn:Hr.
  - destruct (connectGuest_Ok_world env privKey rpcUrl w Hr) as (c & Hv & _ & ->).
    destruct H as [_ Hl]. split; [|exact Hl].
    unfold connector_coherent. simpl. split; [|apply lookup_insert_eq].
    exists privKey, rpcUrl. auto.
  - rewrite (connectGuest_Throw env privKey rpcUrl w e Hr).
    apply coherent_with_status; [discriminate|exact H].
Qed.

Lemma coherent_disconnect w : coherent w -> coherent (snd (disconnect w)).
Proof.
  intros [_ Hl]. split; [|exact Hl].
  unfold connector_coherent. simpl. repeat split. discriminate.
Qed.

Lemma coherent_switchChain env target w :
  coherent w -> coherent (snd (switchChain (current w) env target w)).
Proof.
  intros H. destruct (connector (current w)) as [[]|] eqn:Hc.
  - apply (coherent_same_bindings w); [|exact H].
    unfold switchChain. rewrite Hc.
    apply framed_bind; [apply framed_ensureOnInjected|].
    intros _. apply framed_refreshNetwork.
  - destruct (switchChain_guest_cases (current w) env target w Hc)
      as [[e ->]|(k & url & c & Hs & Hv & _ & _ & ->)]; [exact H|].
    destruct H as [Hcc Hl]. split; [|exact Hl].
    unfold connector_coherent in *. simpl. rewrite Hc in *.
    destruct Hcc as [_ Hst]. split; [|exact Hst].
    exists (privateKey k), url. auto.
  - unfold switchChain. rewrite Hc. exact H.
Qed.

Lemma coherent_autoConnectEffect autoConnect env w :
  coherent w -> coherent (snd (autoConnectEffect autoConnect env w)).
Proof.
  intros H. unfold autoConnectEffect.
  destruct autoConnect; simpl; [|exact H].
  unfold bind, localStorage_getItem.
  destruct (localStorage w !! lastConnectorKey) as [last|]; [|exact H].
  destruct (String.eqb last "metamask"); [|exact H].
  unfold try_catch. pose proof (coherent_connectMetaMask env w H) as Hm.
  destruct (connectMetaMask env w) as [[[]|e] w1]; exact Hm.
Qed.

Lemma coherent_run st env w : coherent w -> coherent (snd (run st env w)).
Proof.
  intros H. destruct st.
  - exact (coherent_connectMetaMask env w H).
  - exact (coherent_connectGuest env privKey rpcUrl w H).
  - exact (coherent_disconnect w H).
  - exact (coherent_same_bindings w _ (framed_refreshNetwork (current w) env w) H).
  - exact (coherent_switchChain env target w H).
  - exact (coherent_same_bindings w _ (framed_addChain env params w) H).
  - exact (coherent_same_bindings w _ (framed_emit env ev w) H).
  - exact (coherent_autoConnectEffect autoConnect env w H).
Qed.

Lemma coherent_reachable w : reachable w -> coherent w.
Proof.
  induction 1 as [storage|w st env _ IH].
  - apply coherent_mount.
  - now apply coherent_run.
Qed.

(** ** Further properties of the provider *)

Lemma ensureOnInjected_sent env target w :
  exists rs, snd (ensureOnInjected env target w) = sent rs w.
Proof.
  unfold ensureOnInjected.
  destruct (injected env) as [[eth request]|].
  - unfold try_catch, eth_request_send.
    destruct (request (wallet_switchEthereumChain _)) as [[]|err].
    + eexists [_]. reflexivity.
    + destruct (_ && _); simpl.
      * eexists [_; _]. unfold sent. simpl. rewrite <- app_assoc. reflexivity.
      * eexists [_]. reflexivity.
  - exists []. unfold sent, throw. simpl. rewrite app_nil_r. now destruct w.
Qed.

Lemma refreshNetwork_Throw state env w e :
  fst (refreshNetwork state env w) = Throw e -> snd (refreshNetwork state env w) = w.
Proof.
  unfold refreshNetwork, bind, await.
  destruct (provider state) as [p|]; [|discriminate].
  destruct (getNetwork env p); simpl; [discriminate|reflexivity].
Qed.

(** X1. [addChain] throws [NO_INJECTED_PROVIDER] and does nothing when no
    injected wallet is there; otherwise it sends the one
    [wallet_addEthereumChain] request for [params] and returns or throws
    as the wallet answers.  In no case does it touch the state cell,
    [localStorage] or the handlers. *)
Theorem addChain_only_asks_the_wallet env params w :
  (injected env = None ->
     addChain env params w = (Throw (Error "NO_INJECTED_PROVIDER"), w)) /\
  (forall eth request,
     injected env = Some (eth, request) ->
     addChain env params w =
       (request (wallet_addEthereumChain (addEthereumChainParams params)),
        sent [wallet_addEthereumChain (addEthereumChainParams params)] w)) /\
  current (snd (addChain env params w)) = current w /\
  localStorage (snd (addChain env params w)) = localStorage w /\
  listeners (snd (addChain env params w)) = listeners w.
Proof.
  split; [|split].
  - intros Hi. unfold addChain. rewrite Hi. reflexivity.
  - intros eth request Hi. unfold addChain. rewrite Hi. reflexivity.
  - unfold addChain. destruct (injected env) as [[eth request]|]; repeat split.
Qed.

(** X2. [switchChain] on a render without connector throws
    [UNSUPPORTED_CONNECTOR]; on a render of the injected connector, when
    no injected wallet is there any more, it throws
    [NO_INJECTED_PROVIDER] without reading the network.  Both leave the
    world as it was. *)
Theorem switchChain_without_connector_or_wallet state env target w :
  (connector state = None ->
     switchChain state env target w = (Throw (Error "UNSUPPORTED_CONNECTOR"), w)) /\
  (connector state = Some metamask ->
     injected env = None ->
     switchChain state env target w = (Throw (Error "NO_INJECTED_PROVIDER"), w)).
Proof.
  split.
  - intros Hc. unfold switchChain. rewrite Hc. reflexivity.
  - intros Hc Hi. unfold switchChain, ensureOnInjected, bind. rewrite Hc, Hi.
    reflexivity.
Qed.

(** X3. A [refreshNetwork] that throws leaves the world as it was, and a
    [switchChain] that throws, on any connector, leaves the state cell,
    [localStorage] and the handlers as they were: neither commits half of
    an update. *)
Theorem failed_network_action_keeps_session state env target w e :
  (fst (refreshNetwork state env w) = Throw e ->
     snd (refreshNetwork state env w) = w) /\
  (fst (switchChain state env target w) = Throw e ->
     current (snd (switchChain state env target w)) = current w /\
     localStorage (snd (switchChain state env target w)) = localStorage w /\
     listeners (snd (switchChain state env target w)) = listeners w).
Proof.
  split; [apply refreshNetwork_Throw|].
  destruct (connector state) as [[]|] eqn:Hc.
  - unfold switchChain. rewrite Hc. unfold bind.
    destruct (ensureOnInjected_sent env target w) as [rs Hrs].
    destruct (ensureOnInjected env target w) as [[[]|e1] w1]; simpl in Hrs; subst w1.
    + intros Hr. rewrite (refreshNetwork_Throw state env (sent rs w) e Hr).
      repeat split.
    + intros _. repeat split.
  - destruct (switchChain_guest_cases state env target w Hc)
      as [[e1 ->]|(k & url & c & _ & _ & _ & _ & ->)]; [|discriminate].
    intros _. repeat split.
  - unfold switchChain. rewrite Hc. intros _. repeat split.
Qed.

(** X4. On a reachable session of the injected connector, when the wallet
    grants the switch request and the provider then reports chain id [c],
    [switchChain] returns having sent that one request and written [c]
    and its directory entry: the chain id read back, whatever
    [target.id] is. *)
Theorem injected_switch_granted w env target eth request c :
  reachable w ->
  connector (current w) = Some metamask ->
  injected env = Some (eth, request) ->
  request (wallet_switchEthereumChain (hexChainId (chain_id target))) = Ok tt ->
  getNetwork env BrowserProvider = Ok c ->
  switchChain (current w) env target w =
    (Ok tt,
     sent [wallet_switchEthereumChain (hexChainId (chain_id target))]
       (committed (with_chain (Some c) (resolveChain (Some c)) (current w)) w)).
Proof.
  intros Hr Hc Hi Hreq Hnet.
  destruct (coherent_reachable w Hr) as [Hcc _].
  unfold connector_coherent in Hcc. rewrite Hc in Hcc. destruct Hcc as (Hp & _ & _).
  unfold switchChain. rewrite Hc.
  unfold ensureOnInjected, bind, try_catch, eth_request_send. rewrite Hi, Hreq.
  unfold refreshNetwork, bind, await. rewrite Hp, Hnet. reflexivity.
Qed.

(** X21. On a reachable session of the injected connector, when the
    wallet rejects the switch request with code 4902 for a target that has
    an RPC URL, grants the add request, and the provider then reports chain
    id [c], [switchChain] returns having sent the switch and the add
    request, in that order, and written [c] and its directory entry. *)
Theorem injected_switch_adds_then_reads w env target eth request err c :
  reachable w ->
  connector (current w) = Some metamask ->
  injected env = Some (eth, request) ->
  request (wallet_switchEthereumChain (hexChainId (chain_id target))) = Throw err ->
  code err = Some 4902 ->
  rpcUrls target <> [] ->
  request (wallet_addEthereumChain (addEthereumChainParams target)) = Ok tt ->
  getNetwork env BrowserProvider = Ok c ->
  switchChain (current w) env target w =
    (Ok tt,
     sent [wallet_switchEthereumChain (hexChainId (chain_id target));
           wallet_addEthereumChain (addEthereumChainParams target)]
       (committed (with_chain (Some c) (resolveChain (Some c)) (current w)) w)).
Proof.
  intros Hr Hc Hi Hreq Hcode Hurls Hadd Hnet.
  destruct (coherent_reachable w Hr) as [Hcc _].
  unfold connector_coherent in Hcc. rewrite Hc in Hcc. destruct Hcc as (Hp & _ & _).
  unfold switchChain. rewrite Hc.
  unfold ensureOnInjected, bind, try_catch, eth_request_send. rewrite Hi, Hreq.
  unfold is4902. rewrite Hcode.
  destruct (rpcUrls target) as [|u us] eqn:Hu; [contradiction|]. simpl.
  rewrite Hadd. unfold refreshNetwork, bind, await. rewrite Hp, Hnet.
  unfold sent, committed. simpl. rewrite <- app_assoc. reflexivity.
Qed.

(** X5. A [connectMetaMask] that returns has committed a connected
    session of the injected connector on a [BrowserProvider], with the
    chain id the provider reported; it has stored "metamask" as last
    connector and changed no other key; it has appended the two handlers
    when the wallet has an [on] method and none otherwise, and has sent
    nothing through [eth.request] itself. *)
Theorem injected_connect_commits env w :
  fst (connectMetaMask env w) = Ok tt ->
  let w' := snd (connectMetaMask env w) in
  status (current w') = connected /\
  connector (current w') = Some metamask /\
  provider (current w') = Some BrowserProvider /\
  (exists c, getNetwork env BrowserProvider = Ok c /\ chainId (current w') = Some c) /\
  localStorage w' !! lastConnectorKey = Some "metamask" /\
  (forall k, k <> lastConnectorKey -> localStorage w' !! k = localStorage w !! k) /\
  requests w' = requests w /\
  exists eth request,
    injected env = Some (eth, request) /\
    listeners w' = (listeners w ++ if eth_on eth then injected_handlers else [])%list.
Proof.
  intros Hok.
  destruct (connectMetaMask_Ok_world env w Hok)
    as (eth & request & sg & a & c & Hi & _ & _ & Hc & ->).
  simpl. repeat split; eauto.
  - apply lookup_insert_eq.
  - intros k Hk. apply lookup_insert_ne. congruence.
Qed.

(** X6. A [connectGuest] that returns was given a key [new Wallet]
    accepts; it has committed a connected guest session whose provider is
    on [rpcUrl], whose signer is the wallet of [privKey] on that provider,
    whose account is the address of [privKey] and whose chain id is the
    one the endpoint reported; it has stored "guest" as last connector,
    and has registered no handler and sent no request. *)
Theorem guest_connect_commits env privKey rpcUrl w :
  fst (connectGuest env privKey rpcUrl w) = Ok tt ->
  let w' := snd (connectGuest env privKey rpcUrl w) in
  isValidPrivateKey privKey = true /\
  status (current w') = connected /\
  connector (current w') = Some guest /\
  provider (current w') = Some (JsonRpcProvider rpcUrl) /\
  signer (current w') =
    Some (WalletSigner {| privateKey := privKey;
                          wallet_provider := JsonRpcProvider rpcUrl |}) /\
  account (current w') = Some (computeAddress privKey) /\
  (exists c,
     getNetwork env (JsonRpcProvider rpcUrl) = Ok c /\ chainId (current w') = Some c) /\
  localStorage w' !! lastConnectorKey = Some "guest" /\
  listeners w' = listeners w /\
  requests w' = requests w.
Proof.
  intros Hok.
  destruct (connectGuest_Ok_world env privKey rpcUrl w Hok) as (c & Hv & Hc & ->).
  simpl. repeat split; eauto. apply lookup_insert_eq.
Qed.

(** X7. A connect that throws has committed no part of a session: the
    state cell it leaves differs from the one it found in the status at
    most, so connector, provider, signer, account, chain id and chain are
    those it found. *)
Theorem failed_connect_writes_status_only env privKey rpcUrl w e :
  (fst (connectMetaMask env w) = Throw e ->
     exists st,
       current (snd (connectMetaMask env w)) = with_status st (current w)) /\
  (fst (connectGuest env privKey rpcUrl w) = Throw e ->
     exists st,
       current (snd (connectGuest env privKey rpcUrl w)) =
         with_status st (current w)).
Proof.
  split; intros Hr.
  - eexists. rewrite (connectMetaMask_Throw env w e Hr). reflexivity.
  - eexists. rewrite (connectGuest_Throw env privKey rpcUrl w e Hr). reflexivity.
Qed.

Lemma status_written_stable : stable status_written.
Proof. split; unfold status_written; simpl; intros; try discriminate; auto. Qed.

(** However many [onAccounts] handlers run, the account ends as the first
    address of the list. *)
Lemma fold_accountsChanged env accounts ls w :
  fold_left (fun w' l => snd (handle env (accountsChanged accounts) l w')) ls w =
    if existsb is_onAccounts ls
    then committed (with_account (accounts !! 0%nat) (current w)) w
    else w.
Proof.
  revert w. induction ls as [|[|p] ls IH]; intros w; simpl.
  - reflexivity.
  - rewrite IH. simpl. destruct (existsb is_onAccounts ls); reflexivity.
  - rewrite IH. now destruct w.
Qed.

(** The handlers of [n] injected connects on a chain-changed event. *)
Lemma fold_chainChanged env hex n w :
  fold_left (fun w' l => snd (handle env (chainChanged hex) l w')) (handler_pairs n) w =
    match getNetwork env BrowserProvider, n with
    | Ok c, S _ => committed (with_chain (Some c) (resolveChain (Some c)) (current w)) w
    | _, _ => w
    end.
Proof.
  revert w. induction n as [|n IH]; intros w.
  - simpl. destruct (getNetwork env BrowserProvider); reflexivity.
  - change (handler_pairs (S n))
      with (onAccounts :: onChain BrowserProvider :: handler_pairs n).
    simpl fold_left. rewrite IH. unfold bind, await.
    destruct (getNetwork env BrowserProvider) as [c|e]; simpl.
    + destruct n; [now destruct w|reflexivity].
    + now destruct w.
Qed.

(** X8. In every reachable world the last-connector entry of
    [localStorage] names the connector of the session, when it has one. *)
Theorem persisted_connector_named w c :
  reachable w ->
  connector (current w) = Some c ->
  localStorage w !! lastConnectorKey = Some (connectorName c).
Proof.
  intros Hr Hc. destruct (coherent_reachable w Hr) as [Hcc _].
  unfold connector_coherent in Hcc. rewrite Hc in Hcc.
  destruct c; [destruct Hcc as (_ & _ & H)|destruct Hcc as (_ & H)]; exact H.
Qed.

(** X9. No step removes a handler from the injected wallet: a step leaves
    the registered handlers as they are or appends the pair of
    [bindInjectedEvents] to them. *)
Theorem step_keeps_handlers st env w :
  listeners (snd (run st env w)) = listeners w \/
  listeners (snd (run st env w)) = (listeners w ++ injected_handlers)%list.
Proof.
  assert (Hm : forall env w,
    listeners (snd (connectMetaMask env w)) = listeners w \/
    listeners (snd (connectMetaMask env w)) = (listeners w ++ injected_handlers)%list).
  { clear. intros env w. destruct (fst (connectMetaMask env w)) as [[]|e] eqn:Hr.
    - destruct (connectMetaMask_Ok_world env w Hr)
        as (eth & request & sg & a & c & _ & _ & _ & _ & ->).
      simpl. destruct (eth_on eth); [now right|left; apply app_nil_r].
    - rewrite (connectMetaMask_Throw env w e Hr). now left. }
  destruct st.
  - apply Hm.
  - left. change (run (call_connectGuest privKey rpcUrl) env w)
      with (connectGuest env privKey rpcUrl w).
    destruct (fst (connectGuest env privKey rpcUrl w)) as [[]|e] eqn:Hr.
    + destruct (connectGuest_Ok_world env privKey rpcUrl w Hr) as (c & _ & _ & ->).
      reflexivity.
    + now rewrite (connectGuest_Throw env privKey rpcUrl w e Hr).
  - now left.
  - left. apply (framed_refreshNetwork (current w) env w).
  - left. change (run (call_switchChain target) env w)
      with (switchChain (current w) env target w).
    destruct (connector (current w)) as [[]|] eqn:Hc.
    + assert (H : framed (switchChain (current w) env target)).
      { unfold switchChain. rewrite Hc.
        apply framed_bind; [apply framed_ensureOnInjected|].
        intros _. apply framed_refreshNetwork. }
      apply H.
    + destruct (switchChain_guest_cases (current w) env target w Hc)
        as [[e ->]|(k & url & c & _ & _ & _ & _ & ->)]; reflexivity.
    + unfold switchChain. rewrite Hc. reflexivity.
  - left. apply (framed_addChain env params w).
  - left. apply (framed_emit env ev w).
  - change (run (effect_autoConnect autoConnect) env w)
      with (autoConnectEffect autoConnect env w).
    unfold autoConnectEffect. destruct autoConnect; simpl; [|now left].
    unfold bind, localStorage_getItem.
    destruct (localStorage w !! lastConnectorKey) as [last|]; [|now left].
    destruct (String.eqb last "metamask"); [|now left].
    unfold try_catch. specialize (Hm env w).
    destruct (connectMetaMask env w) as [[[]|e] w1]; exact Hm.
Qed.





Lemma session_state_stable : stable session_state.
Proof.
  split; intros.
  - apply session_initial.
  - now apply session_connecting.
  - now apply session_disconnected.
  - now apply session_account.
  - now apply session_chain.
  - now apply session_rebind.
  - apply session_metamask.
  - now apply session_guest.
Qed.

(** A predicate every update keeps holds wherever overlapping actions
    can lead. *)
Lemma stable_session_state P s : stable P -> session_state s -> P s.
Proof.
  intros HP. induction 1.
  - exact (stable_initial P HP).
  - now apply stable_connecting.
  - now apply stable_disconnected.
  - now apply stable_account.
  - now apply stable_chain.
  - now apply stable_rebind.
  - now apply stable_metamask.
  - now apply stable_guest.
Qed.

Lemma handles_agree_stable : stable handles_agree.
Proof.
  split; unfold handles_agree; simpl.
  - split; [split; intros [x Hx]; discriminate|].
    repeat (split; [discriminate|]). discriminate.
  - intros s (H1 & H2 & H3 & H4 & H5).
    split; [exact H1|]. split; [exact H2|]. split; [exact H3|].
    split; [exact H4|discriminate].
  - intros s (H1 & H2 & H3 & H4 & H5).
    split; [exact H1|]. split; [exact H2|]. split; [exact H3|].
    split; [exact H4|discriminate].
  - intros a s H. exact H.
  - intros c s H. exact H.
  - intros k p c s Hv (H1 & H2 & H3 & H4 & H5).
    split; [split; eauto|]. split; [discriminate|]. split.
    { intros wl [= <-]. simpl. auto. }
    split; [eauto|]. intros Hst. destruct (H5 Hst) as (Hc & _ & _). eauto.
  - intros sg a c. split; [split; eauto|]. split; [reflexivity|].
    split; [discriminate|]. split; [discriminate|]. eauto.
  - intros k p c Hv. split; [split; eauto|]. split; [discriminate|]. split.
    { intros wl [= <-]. simpl. auto. }
    split; eauto.
Qed.

(** X11. However the actions and handlers of the provider overlap, the
    handles of the session fit together: there is a provider exactly when
    there is a signer; a [JsonRpcSigner] comes with a [BrowserProvider]; a
    wallet signer has a valid key and is bound to the provider of the
    session; a guest session has a wallet signer; and a connected session
    has connector, provider and signer.  The states of the reachable
    worlds are among those covered. *)
Theorem handles_agree_in_every_interleaving :
  (forall w, reachable w -> session_state (current w)) /\
  (forall s,
     session_state s ->
     (is_Some (provider s) <-> is_Some (signer s)) /\
     (forall a, signer s = Some (JsonRpcSigner a) -> provider s = Some BrowserProvider) /\
     (forall wl,
        signer s = Some (WalletSigner wl) ->
        provider s = Some (wallet_provider wl) /\
        isValidPrivateKey (privateKey wl) = true) /\
     (connector s = Some guest -> exists wl, signer s = Some (WalletSigner wl)) /\
     (status s = connected ->
        is_Some (connector s) /\ is_Some (provider s) /\ is_Some (signer s))).
Proof.
  split.
  - intros w. exact (stable_reachable session_state session_state_stable w).
  - intros s Hs. exact (stable_session_state handles_agree s handles_agree_stable Hs).
Qed.

(** X22. However the actions and handlers of the provider overlap, the
    chain of the session is the directory entry of its chain id, the
    status is never [locked], a connected session has a signer, and the
    signer of a guest session is a wallet with a valid key. *)
Theorem invariants_in_every_interleaving s :
  session_state s ->
  chain s = resolveChain (chainId s) /\
  status s <> locked /\
  (status s = connected -> is_Some (signer s)) /\
  (connector s = Some guest ->
     exists wl, signer s = Some (WalletSigner wl) /\
                isValidPrivateKey (privateKey wl) = true).
Proof.
  intros Hs. split; [|split; [|split]].
  - exact (stable_session_state chain_derived s chain_derived_stable Hs).
  - exact (stable_session_state status_written s status_written_stable Hs).
  - exact (stable_session_state connected_signed s connected_signed_stable Hs).
  - exact (stable_session_state guest_wallet s guest_wallet_stable Hs).
Qed.

(** X12. An event of the injected wallet never changes status, connector,
    provider or signer, whatever handlers are registered and whatever the
    network answers, and neither [localStorage] nor the handlers; the
    emission itself never throws. *)
Theorem event_keeps_bindings env ev w :
  fst (emit env ev w) = Ok tt /\
  status (current (snd (emit env ev w))) = status (current w) /\
  connector (current (snd (emit env ev w))) = connector (current w) /\
  provider (current (snd (emit env ev w))) = provider (current w) /\
  signer (current (snd (emit env ev w))) = signer (current w) /\
  localStorage (snd (emit env ev w)) = localStorage w /\
  listeners (snd (emit env ev w)) = listeners w.
Proof.
  destruct (framed_emit env ev w) as ((H1 & H2 & H3 & H4) & H5 & H6).
  repeat split; assumption.
Qed.

(** X13. On an accounts-changed event the account becomes the first
    address of the list, or absent for an empty list, when an
    [onAccounts] handler is registered, however many are; with none
    registered nothing changes. Nothing but the account is written. *)
Theorem accountsChanged_sets_first_account env accounts w :
  emit env (accountsChanged accounts) w =
    (Ok tt,
     if existsb is_onAccounts (listeners w)
     then committed (with_account (accounts !! 0%nat) (current w)) w
     else w).
Proof. unfold emit. rewrite fold_accountsChanged. reflexivity. Qed.

(** X14. In a reachable world, on a chain-changed event the chain id
    becomes the one the [BrowserProvider] reports, with its directory
    entry, when a handler is registered and the read succeeds; when the
    read fails or no handler is registered nothing changes.  The payload
    of the event plays no part. *)
Theorem chainChanged_rereads_network env hex w :
  reachable w ->
  emit env (chainChanged hex) w =
    (Ok tt,
     match getNetwork env BrowserProvider with
     | Ok c =>
         if existsb is_onChain (listeners w)
         then committed (with_chain (Some c) (resolveChain (Some c)) (current w)) w
         else w
     | Throw _ => w
     end).
Proof.
  intros Hr. destruct (coherent_reachable w Hr) as [_ [n Hn]].
  unfold emit. rewrite Hn, fold_chainChanged.
  destruct (getNetwork env BrowserProvider) as [c|e]; [|reflexivity].
  destruct n; reflexivity.
Qed.

(** X15. The auto-connect effect never throws.  It does nothing when
    [autoConnect] is off or when the stored last connector is not
    "metamask" (absent, or "guest"); otherwise it leaves the world
    [connectMetaMask] leaves, whether that returns or throws. *)
Theorem autoConnect_swallows_failure autoConnect env w :
  fst (autoConnectEffect autoConnect env w) = Ok tt /\
  (autoConnect = false -> snd (autoConnectEffect autoConnect env w) = w) /\
  (localStorage w !! lastConnectorKey <> Some "metamask" ->
     snd (autoConnectEffect autoConnect env w) = w) /\
  (autoConnect = true ->
     localStorage w !! lastConnectorKey = Some "metamask" ->
     snd (autoConnectEffect autoConnect env w) = snd (connectMetaMask env w)).
Proof.
  unfold autoConnectEffect, bind, localStorage_getItem, try_catch.
  destruct autoConnect; simpl.
  - destruct (localStorage w !! lastConnectorKey) as [last|] eqn:Hl.
    + destruct (String.eqb_spec last "metamask") as [->|Hne].
      * destruct (connectMetaMask env w) as [[[]|e] w1]; simpl;
          repeat split; try congruence.
      * repeat split; congruence.
    + repeat split; congruence.
  - repeat split. congruence.
Qed.

(** X16. Every entry of the directory is found by its id, up to an
    earlier entry with the same id: the lookup of the id of a listed chain
    gives an entry with that id, and gives the entry itself when no
    earlier entry shares its id. *)
Theorem resolveChain_finds_listed before cfg after :
  knownChains = (before ++ cfg :: after)%list ->
  (exists found,
     resolveChain (Some (chain_id cfg)) = Some found /\
     chain_id found = chain_id cfg /\ In found knownChains) /\
  ((forall c, In c before -> chain_id c <> chain_id cfg) ->
   resolveChain (Some (chain_id cfg)) = Some cfg).
Proof.
  intros Hk. unfold resolveChain. rewrite Hk. clear Hk. split.
  - destruct (find _ (before ++ cfg :: after)) as [found|] eqn:Hf.
    + exists found. apply find_some in Hf. destruct Hf as [Hin Heq].
      apply Z.eqb_eq in Heq. auto.
    + exfalso. apply find_none with (x := cfg) in Hf.
      * rewrite Z.eqb_refl in Hf. discriminate.
      * apply in_or_app. right. now left.
  - intros Hb. induction before as [|b before IH]; simpl.
    + now rewrite Z.eqb_refl.
    + destruct (Z.eqb_spec (chain_id b) (chain_id cfg)) as [Heq|_].
      * exfalso. apply (Hb b); [now left|exact Heq].
      * apply IH. intros c Hc. apply Hb. now right.
Qed.

Lemma to_hex_int_not_nil n :
  Z.to_hex_int n <> Hexadecimal.Pos Hexadecimal.Nil /\
  Z.to_hex_int n <> Hexadecimal.Neg Hexadecimal.Nil.
Proof.
  split; intros H; pose proof (f_equal Z.of_hex_int H) as H0;
    rewrite HexadecimalZ.of_to in H0; simpl in H0; subst n; discriminate H.
Qed.

(** X17. Two chain ids with the same hexadecimal form in a request are the
    same id. *)
Theorem hexChainId_injective n m :
  hexChainId n = hexChainId m -> n = m.
Proof.
  intros H. unfold hexChainId in H. cbn [String.append] in H.
  injection H as H.
  change (NilZero.string_of_int (Z.to_hex_int n) =
          NilZero.string_of_int (Z.to_hex_int m)) in H.
  apply (f_equal NilZero.int_of_string) in H.
  destruct (to_hex_int_not_nil n) as [Hn1 Hn2].
  destruct (to_hex_int_not_nil m) as [Hm1 Hm2].
  rewrite !NilZero.isi in H by assumption.
  injection H as H. now apply HexadecimalZ.to_int_inj.
Qed.

(** X18. No reachable session has the status [locked]: the provider
    writes [disconnected], [connecting] and [connected] only. *)
Theorem status_never_locked w :
  reachable w -> status (current w) <> locked.
Proof. exact (stable_reachable status_written status_written_stable w). Qed.

(** X19. On the context value of a reachable world the three hooks
    return, [useAddress] reports connected exactly when [useSigner]
    reports the status [connected], a connected report comes with a
    signer, and the chain [useNetwork] reports is the directory entry of
    the chain id it reports. *)
Theorem hooks_agree_on_reachable w :
  reachable w ->
  exists a s n,
    useAddress (Some (value (current w))) = Ok a /\
    useSigner (Some (value (current w))) = Ok s /\
    useNetwork (Some (value (current w))) = Ok n /\
    (isConnected a = true <-> us_status s = connected) /\
    (isConnected a = true -> is_Some (us_signer s)) /\
    un_chain n = resolveChain (un_chainId n).
Proof.
  intros Hr. do 3 eexists. split; [reflexivity|]. split; [reflexivity|].
  split; [reflexivity|]. simpl.
  pose proof (stable_reachable connected_signed connected_signed_stable w Hr) as Hs.
  pose proof (stable_reachable chain_derived chain_derived_stable w Hr) as Hc.
  unfold connected_signed in Hs. split; [|split].
  - destruct (status (current w)); split; congruence.
  - intros H. apply Hs. destruct (status (current w)); congruence.
  - exact Hc.
Qed.

(** X20. With the default, empty directory no reachable session has a
    chain. *)
Theorem empty_directory_no_chain w :
  knownChains = [] -> reachable w -> chain (current w) = None.
Proof.
  intros Hk Hr.
  pose proof (stable_reachable chain_derived chain_derived_stable w Hr) as Hc.
  unfold chain_derived in Hc. rewrite Hc. unfold resolveChain. rewrite Hk.
  now destruct (chainId (current w)).
Qed.

End WalletProvider.

(** ** The provider at work on sample worlds *)

Example hexChainId_137 : hexChainId 137 = "0x89".
Proof. reflexivity. Qed.

Example hexChainId_0 : hexChainId 0 = "0x0".
Proof. reflexivity. Qed.

Example hexChainId_43114 : hexChainId 43114 = "0xa86a".
Proof. reflexivity. Qed.

Example guest_world_state :
  current (guest_world directory anyKey keyAddress) =
    {| status := connected; connector := Some guest;
       provider := Some (JsonRpcProvider "https://rpc.a");
       signer := Some (WalletSigner {| privateKey := "0x0123";
                                       wallet_provider := JsonRpcProvider "https://rpc.a" |});
       account := Some "0xaddress-of-0x0123"; chainId := Some 1;
       chain := Some mainnet |}.
Proof. reflexivity. Qed.

Example injected_world_state :
  current (injected_world directory anyKey keyAddress) =
    {| status := connected; connector := Some metamask;
       provider := Some BrowserProvider;
       signer := Some (JsonRpcSigner "0xa11ce");
       account := Some "0xa11ce"; chainId := Some 1;
       chain := Some mainnet |}.
Proof. reflexivity. Qed.

Example injected_world_listeners :
  listeners (injected_world directory anyKey keyAddress) =
    [onAccounts; onChain BrowserProvider].
Proof. reflexivity. Qed.

Lemma guest_world_reachable :
  reachable directory anyKey keyAddress (guest_world directory anyKey keyAddress).
Proof. unfold guest_world. apply reachable_run, reachable_mount. Qed.

Lemma injected_world_reachable :
  reachable directory anyKey keyAddress (injected_world directory anyKey keyAddress).
Proof. unfold injected_world. apply reachable_run, reachable_mount. Qed.

Lemma unlisted_world_reachable :
  reachable directory anyKey keyAddress (unlisted_world directory anyKey keyAddress).
Proof. unfold unlisted_world. apply reachable_run, reachable_mount. Qed.

Lemma polygon_world_reachable :
  reachable directory anyKey keyAddress (polygon_world directory anyKey keyAddress).
Proof. unfold polygon_world. apply reachable_run, reachable_mount. Qed.

Lemma revoked_world_reachable :
  reachable directory anyKey keyAddress (revoked_world directory anyKey keyAddress).
Proof. unfold revoked_world. apply reachable_run, injected_world_reachable. Qed.

Lemma left_world_reachable :
  reachable directory anyKey keyAddress (left_world directory anyKey keyAddress).
Proof. unfold left_world. apply reachable_run, injected_world_reachable. Qed.

(** Witness of C3: the guest session on chain 1 carries Ethereum, the
    first entry of the directory, and the one on chain 137 carries
    Polygon, the second; the world at mount has neither chain id nor
    chain, and the guest session on the unlisted chain 5 has no chain. *)
Lemma chain_is_directory_lookup_witness :
  (reachable directory anyKey keyAddress (guest_world directory anyKey keyAddress) /\
   chain (current (guest_world directory anyKey keyAddress)) =
     resolveChain directory (chainId (current (guest_world directory anyKey keyAddress))) /\
   chain (current (guest_world directory anyKey keyAddress)) = Some mainnet) /\
  chain (current (polygon_world directory anyKey keyAddress)) = Some polygon /\
  (exists found,
     chain (current (polygon_world directory anyKey keyAddress)) = Some found /\
     chain_id found = 137 /\ In found directory) /\
  chain (current (mount ∅)) = None /\
  chain (current (unlisted_world directory anyKey keyAddress)) = None.
Proof.
  split; [|split; [|split; [|split]]].
  - destruct (chain_is_directory_lookup directory anyKey keyAddress
                (guest_world directory anyKey keyAddress) guest_world_reachable)
      as (H1 & _ & _ & _ & _ & H6).
    split; [exact guest_world_reachable|]. split; [exact H1|].
    refine (H6 [] mainnet [polygon] eq_refl _ eq_refl).
    intros c [].
  - refine (proj2 (proj2 (proj2 (proj2 (proj2
              (chain_is_directory_lookup directory anyKey keyAddress
                 (polygon_world directory anyKey keyAddress)
                 polygon_world_reachable)))))
              [mainnet] polygon [] eq_refl _ eq_refl).
    intros c [<-|[]]. discriminate.
  - refine (proj1 (proj2 (proj2 (proj2 (proj2
              (chain_is_directory_lookup directory anyKey keyAddress
                 (polygon_world directory anyKey keyAddress)
                 polygon_world_reachable)))))
              polygon _ eq_refl).
    right. now left.
  - exact (proj1 (proj2 (proj2 (chain_is_directory_lookup directory anyKey keyAddress
                                  (mount ∅) (reachable_mount _ _ _ ∅)))) eq_refl).
  - refine (proj1 (proj2 (proj2 (proj2 (chain_is_directory_lookup directory anyKey
                                          keyAddress
                                          (unlisted_world directory anyKey keyAddress)
                                          unlisted_world_reachable))))
              5 eq_refl _).
    intros cfg [<-|[<-|[]]]; discriminate.
Defined.

(** C2 as stated fails: after a connect through the injected wallet and an
    accounts-changed notification with an empty list, the session is
    connected and has a signer but no account. *)
Lemma connected_without_account :
  let w := revoked_world directory anyKey keyAddress in
  reachable directory anyKey keyAddress w /\
  status (current w) = connected /\
  signer (current w) = Some (JsonRpcSigner "0xa11ce") /\
  account (current w) = None /\
  ~ (status (current w) = connected <->
     is_Some (signer (current w)) /\ is_Some (account (current w))).
Proof.
  cbv zeta. split; [exact revoked_world_reachable|].
  split; [reflexivity|]. split; [reflexivity|]. split; [reflexivity|].
  intros [H _]. destruct (H eq_refl) as [_ [a Ha]]. discriminate Ha.
Qed.

(** Witness of C2 as amended: the session connected through the injected
    wallet, and the two connects from the world at mount. *)
Lemma connected_session_has_signer_witness :
  (reachable directory anyKey keyAddress (injected_world directory anyKey keyAddress) /\
   status (current (injected_world directory anyKey keyAddress)) = connected /\
   is_Some (signer (current (injected_world directory anyKey keyAddress)))) /\
  (let s := current (snd (connectMetaMask directory (env_granting 1) (mount ∅))) in
   status s = connected /\ is_Some (signer s) /\ is_Some (account s)) /\
  (let s := current (snd (connectGuest directory anyKey keyAddress (env_rpc 1)
                            "0x0123" "https://rpc.a" (mount ∅))) in
   status s = connected /\ is_Some (signer s) /\ is_Some (account s)).
Proof.
  split; [|split].
  - split; [exact injected_world_reachable|]. split; [reflexivity|].
    exact (proj1 (connected_session_has_signer directory anyKey keyAddress
                    (injected_world directory anyKey keyAddress)
                    injected_world_reachable) eq_refl).
  - exact (proj1 (proj2 (connected_session_has_signer directory anyKey keyAddress
                           (mount ∅) (reachable_mount _ _ _ ∅)))
             (env_granting 1) eq_refl).
  - exact (proj2 (proj2 (connected_session_has_signer directory anyKey keyAddress
                           (mount ∅) (reachable_mount _ _ _ ∅)))
             (env_rpc 1) "0x0123" "https://rpc.a" eq_refl).
Defined.

(** The other direction fails as well: when a connected guest session asks
    for an injected wallet that is not there, the status goes back to
    [disconnected] while signer and account stay. *)
Example signer_left_after_missing_wallet :
  let w := snd (run directory anyKey keyAddress call_connectMetaMask (env_rpc 1)
                  (guest_world directory anyKey keyAddress)) in
  status (current w) = disconnected /\
  is_Some (signer (current w)) /\ is_Some (account (current w)).
Proof. cbv zeta. repeat split; eexists; reflexivity. Qed.

(** C4 as stated fails: for a target without RPC URLs, a 4902 answer to
    the switch request is thrown to the caller; the switch request is the
    only one sent and the chain id is not read again. *)
Lemma unknown_chain_without_rpcUrls_not_added :
  let w := injected_world directory anyKey keyAddress in
  let r := switchChain directory anyKey (current w) (env_unknown_chain 137)
             polygon_without_rpc w in
  connector (current w) = Some metamask /\
  code unrecognizedChain = Some 4902 /\
  fst r = Throw unrecognizedChain /\
  requests (snd r) = [wallet_switchEthereumChain "0x89"] /\
  chainId (current (snd r)) = Some 1.
Proof. cbv zeta. repeat split. Qed.

(** Witness of C4 as amended: the wallet answers 4902 for a target with
    an RPC URL and for one without, and 4001 for the first. *)
Lemma injected_switch_falls_back_to_add_witness :
  let w := injected_world directory anyKey keyAddress in
  switchChain directory anyKey (current w) (env_unknown_chain 137) polygon w =
    refreshNetwork directory (current w) (env_unknown_chain 137)
      (sent [wallet_switchEthereumChain "0x89";
             wallet_addEthereumChain {|
               p_chainId := "0x89"; p_chainName := "Polygon";
               p_rpcUrls := ["https://rpc.b"];
               p_nativeCurrency :=
                 {| nc_name := "ETH"; nc_symbol := "ETH"; nc_decimals := 18 |};
               p_blockExplorerUrls := [] |}] w) /\
  switchChain directory anyKey (current w) (env_unknown_chain 137)
      polygon_without_rpc w =
    (Throw unrecognizedChain, sent [wallet_switchEthereumChain "0x89"] w) /\
  switchChain directory anyKey (current w) (env_switch_rejected userRejected 137)
      polygon w =
    (Throw userRejected, sent [wallet_switchEthereumChain "0x89"] w).
Proof.
  cbv zeta. split; [|split].
  - refine (proj1 (injected_switch_falls_back_to_add directory anyKey
                     (current (injected_world directory anyKey keyAddress))
                     (env_unknown_chain 137) polygon
                     (wallet_rejecting_switch unrecognizedChain)
                     (request_rejecting_switch unrecognizedChain)
                     unrecognizedChain
                     (injected_world directory anyKey keyAddress)
                     eq_refl eq_refl eq_refl) eq_refl _).
    discriminate.
  - exact (proj1 (proj2 (injected_switch_falls_back_to_add directory anyKey
                           (current (injected_world directory anyKey keyAddress))
                           (env_unknown_chain 137) polygon_without_rpc
                           (wallet_rejecting_switch unrecognizedChain)
                           (request_rejecting_switch unrecognizedChain)
                           unrecognizedChain
                           (injected_world directory anyKey keyAddress)
                           eq_refl eq_refl eq_refl)) eq_refl eq_refl).
  - refine (proj2 (proj2 (injected_switch_falls_back_to_add directory anyKey
                            (current (injected_world directory anyKey keyAddress))
                            (env_switch_rejected userRejected 137) polygon
                            (wallet_rejecting_switch userRejected)
                            (request_rejecting_switch userRejected)
                            userRejected
                            (injected_world directory anyKey keyAddress)
                            eq_refl eq_refl eq_refl)) _).
    discriminate.
Defined.

(** C5 as stated fails: a target whose list of RPC URLs is not empty but
    starts with the empty string is refused, and the session stays on
    chain 1 although the endpoint would report 137. *)
Lemma guest_switch_blank_rpcUrl_refused :
  let w := guest_world directory anyKey keyAddress in
  let r := switchChain directory anyKey (current w) (env_rpc 137) polygon_blank_rpc w in
  reachable directory anyKey keyAddress w /\
  status (current w) = connected /\
  connector (current w) = Some guest /\
  rpcUrls polygon_blank_rpc <> [] /\
  r = (Throw (Error "RPC_URL_REQUIRED"), w) /\
  chainId (current (snd r)) = Some 1.
Proof.
  cbv zeta. split; [exact guest_world_reachable|].
  repeat split. discriminate.
Qed.

(** Witness of C5 as amended: the guest session of chain 1 moves to the
    endpoint that reports 137. *)
Lemma guest_switch_keeps_key_witness :
  exists prev,
    signer (current (guest_world directory anyKey keyAddress)) = Some (WalletSigner prev) /\
    signer (current (snd (switchChain directory anyKey
                            (current (guest_world directory anyKey keyAddress))
                            (env_rpc 137) polygon
                            (guest_world directory anyKey keyAddress)))) =
      Some (WalletSigner {| privateKey := privateKey prev;
                            wallet_provider := JsonRpcProvider "https://rpc.b" |}) /\
    chainId (current (snd (switchChain directory anyKey
                             (current (guest_world directory anyKey keyAddress))
                             (env_rpc 137) polygon
                             (guest_world directory anyKey keyAddress)))) = Some 137.
Proof.
  destruct (guest_switch_keeps_key directory anyKey keyAddress keySignature
              (guest_world directory anyKey keyAddress) (env_rpc 137) polygon
              "https://rpc.b" 137
              guest_world_reachable eq_refl eq_refl ltac:(discriminate) eq_refl)
    as (prev & Hs & _ & _ & Hn & _ & Hc).
  exists prev. split; [exact Hs|]. split; [exact Hn|exact Hc].
Defined.

(** Witness of C6: the guest session of chain 1 and a target without RPC
    URLs. *)
Lemma guest_switch_without_rpcUrl_witness :
  let w := guest_world directory anyKey keyAddress in
  switchChain directory anyKey (current w) (env_rpc 137) polygon_without_rpc w =
    (Throw (Error "RPC_URL_REQUIRED"), w).
Proof.
  cbv zeta.
  exact (guest_switch_without_rpcUrl directory anyKey
           (current (guest_world directory anyKey keyAddress)) (env_rpc 137)
           polygon_without_rpc (guest_world directory anyKey keyAddress)
           eq_refl eq_refl).
Defined.

(** C7 as stated fails: after [disconnect] the two handlers of the
    injected session are still registered, and the next accounts-changed
    notification writes an account into the disconnected session. *)
Lemma disconnect_leaves_listeners :
  let w := left_world directory anyKey keyAddress in
  let w' := snd (run directory anyKey keyAddress
                   (injected_emits (accountsChanged ["0xb0b"])) (env_granting 1) w) in
  reachable directory anyKey keyAddress w /\
  current w = initialState /\
  listeners w = [onAccounts; onChain BrowserProvider] /\
  status (current w') = disconnected /\
  account (current w') = Some "0xb0b".
Proof.
  cbv zeta. split; [exact left_world_reachable|]. repeat split.
Qed.

(** Witness of C9: a render without a provider, and the guest session when
    its endpoint reports chain 137. *)
Lemma refreshNetwork_updates_chain_only_witness :
  refreshNetwork directory initialState (env_rpc 137) (mount ∅) = (Ok tt, mount ∅) /\
  let w := guest_world directory anyKey keyAddress in
  refreshNetwork directory (current w) (env_rpc 137) w =
    (Ok tt, committed (with_chain (Some 137) (Some polygon) (current w)) w).
Proof.
  split.
  - exact (proj1 (refreshNetwork_updates_chain_only directory initialState
                    (env_rpc 137) (mount ∅)) eq_refl).
  - cbv zeta.
    exact (proj1 (proj2 (refreshNetwork_updates_chain_only directory
                           (current (guest_world directory anyKey keyAddress))
                           (env_rpc 137) (guest_world directory anyKey keyAddress))
                    (JsonRpcProvider "https://rpc.a") 137 eq_refl eq_refl)).
Defined.

(** Witness of C1's evaluation, from the initial world. *)
Lemma failed_connect_stays_connecting_witness :
  status (current (snd (connectMetaMask directory env_rejecting (mount ∅)))) = connecting /\
  status (current (snd (connectGuest directory anyKey keyAddress env_offline
                          "0x0123" "https://rpc.a" (mount ∅)))) = connecting.
Proof.
  destruct (failed_connect_stays_connecting directory anyKey keyAddress (mount ∅)
              "0x0123" "https://rpc.a" eq_refl) as (H1 & H2 & _).
  rewrite H1, H2. split; reflexivity.
Defined.

(** ** Sample runs of the further properties *)

(** Witness of X1: no wallet, and a wallet that grants. *)
Lemma addChain_only_asks_the_wallet_witness :
  addChain (env_rpc 1) polygon (mount ∅) =
    (Throw (Error "NO_INJECTED_PROVIDER"), mount ∅) /\
  addChain (env_granting 1) polygon (mount ∅) =
    (Ok tt, sent [wallet_addEthereumChain (addEthereumChainParams polygon)] (mount ∅)).
Proof.
  split.
  - exact (proj1 (addChain_only_asks_the_wallet (env_rpc 1) polygon (mount ∅)) eq_refl).
  - exact (proj1 (proj2 (addChain_only_asks_the_wallet (env_granting 1) polygon (mount ∅)))
             {| eth_request := Some (fun _ => Ok tt); eth_on := true |}
             (fun _ => Ok tt) eq_refl).
Defined.

(** Witness of X2: the initial render, and the injected session once the
    wallet is gone. *)
Lemma switchChain_without_connector_or_wallet_witness :
  switchChain directory anyKey initialState (env_granting 1) polygon (mount ∅) =
    (Throw (Error "UNSUPPORTED_CONNECTOR"), mount ∅) /\
  switchChain directory anyKey (current (injected_world directory anyKey keyAddress))
      (env_rpc 137) polygon (injected_world directory anyKey keyAddress) =
    (Throw (Error "NO_INJECTED_PROVIDER"), injected_world directory anyKey keyAddress).
Proof.
  split.
  - exact (proj1 (switchChain_without_connector_or_wallet directory anyKey initialState
                    (env_granting 1) polygon (mount ∅)) eq_refl).
  - exact (proj2 (switchChain_without_connector_or_wallet directory anyKey
                    (current (injected_world directory anyKey keyAddress))
                    (env_rpc 137) polygon (injected_world directory anyKey keyAddress))
             eq_refl eq_refl).
Defined.

(** Witness of X3: the guest session when no endpoint answers. *)
Lemma failed_network_action_keeps_session_witness :
  let w := guest_world directory anyKey keyAddress in
  snd (refreshNetwork directory (current w) env_offline w) = w /\
  current (snd (switchChain directory anyKey (current w) env_offline polygon w)) =
    current w.
Proof.
  cbv zeta.
  pose proof (failed_network_action_keeps_session directory anyKey
                (current (guest_world directory anyKey keyAddress)) env_offline polygon
                (guest_world directory anyKey keyAddress) networkDown) as [H1 H2].
  split; [exact (H1 eq_refl)|exact (proj1 (H2 eq_refl))].
Defined.

(** Witness of X4: the injected session on chain 1, a wallet that grants
    the switch, a provider that then reports 137. *)
Lemma injected_switch_granted_witness :
  let w := injected_world directory anyKey keyAddress in
  switchChain directory anyKey (current w) (env_granting 137) polygon w =
    (Ok tt,
     sent [wallet_switchEthereumChain "0x89"]
       (committed (with_chain (Some 137) (Some polygon) (current w)) w)).
Proof.
  cbv zeta.
  exact (injected_switch_granted directory anyKey keyAddress
           (injected_world directory anyKey keyAddress) (env_granting 137) polygon
           {| eth_request := Some (fun _ => Ok tt); eth_on := true |}
           (fun _ => Ok tt) 137
           injected_world_reachable eq_refl eq_refl eq_refl eq_refl).
Defined.

(** Witness of X5: the first connect through a granting wallet. *)
Lemma injected_connect_commits_witness :
  let w' := snd (connectMetaMask directory (env_granting 1) (mount ∅)) in
  status (current w') = connected /\
  localStorage w' !! lastConnectorKey = Some "metamask".
Proof.
  cbv zeta.
  destruct (injected_connect_commits directory (env_granting 1) (mount ∅) eq_refl)
    as (H1 & _ & _ & _ & H2 & _).
  split; [exact H1|exact H2].
Defined.

(** Witness of X6: the first guest connect on an endpoint of chain 1. *)
Lemma guest_connect_commits_witness :
  let w' := snd (connectGuest directory anyKey keyAddress (env_rpc 1)
                   "0x0123" "https://rpc.a" (mount ∅)) in
  account (current w') = Some "0xaddress-of-0x0123" /\
  localStorage w' !! lastConnectorKey = Some "guest" /\
  listeners w' = [].
Proof.
  cbv zeta.
  destruct (guest_connect_commits directory anyKey keyAddress (env_rpc 1)
              "0x0123" "https://rpc.a" (mount ∅) eq_refl)
    as (_ & _ & _ & _ & _ & H1 & _ & H2 & H3 & _).
  split; [exact H1|]. split; [exact H2|exact H3].
Defined.

(** Witness of X7: a rejected account request on the guest session, and
    a guest connect on an endpoint that does not answer. *)
Lemma failed_connect_writes_status_only_witness :
  (exists st,
     current (snd (connectMetaMask directory env_rejecting
                     (guest_world directory anyKey keyAddress))) =
       with_status st (current (guest_world directory anyKey keyAddress))) /\
  (exists st,
     current (snd (connectGuest directory anyKey keyAddress env_offline
                     "0x0123" "https://rpc.a" (mount ∅))) =
       with_status st initialState).
Proof.
  split.
  - exact (proj1 (failed_connect_writes_status_only directory anyKey keyAddress
                    env_rejecting "0x0123" "https://rpc.a"
                    (guest_world directory anyKey keyAddress) userRejected)
             eq_refl).
  - exact (proj2 (failed_connect_writes_status_only directory anyKey keyAddress
                    env_offline "0x0123" "https://rpc.a" (mount ∅) networkDown)
             eq_refl).
Defined.

(** Witness of X8: the guest session. *)
Lemma persisted_connector_named_witness :
  localStorage (guest_world directory anyKey keyAddress) !! lastConnectorKey =
    Some "guest".
Proof.
  exact (persisted_connector_named directory anyKey keyAddress
           (guest_world directory anyKey keyAddress) guest
           guest_world_reachable eq_refl).
Defined.


(** Witness of X11: the state a guest switch leaves when it resumes after
    a disconnect, without connector but with provider and signer. *)
Lemma handles_agree_in_every_interleaving_witness :
  let s := with_rebind (JsonRpcProvider "https://rpc.b")
             (WalletSigner {| privateKey := "0x0123";
                              wallet_provider := JsonRpcProvider "https://rpc.b" |})
             (Some 137) (resolveChain directory (Some 137)) initialState in
  connector s = None /\
  (is_Some (provider s) <-> is_Some (signer s)) /\
  session_state directory anyKey keyAddress
    (current (guest_world directory anyKey keyAddress)).
Proof.
  cbv zeta. split; [reflexivity|]. split.
  - exact (proj1 (proj2 (handles_agree_in_every_interleaving directory anyKey
                           keyAddress) _
                    (session_rebind directory anyKey keyAddress "0x0123"
                       (JsonRpcProvider "https://rpc.b") 137 initialState eq_refl
                       (session_initial directory anyKey keyAddress)))).
  - exact (proj1 (handles_agree_in_every_interleaving directory anyKey keyAddress)
             (guest_world directory anyKey keyAddress) guest_world_reachable).
Defined.

(** Witness of X22: the same state. *)
Lemma invariants_in_every_interleaving_witness :
  let s := with_rebind (JsonRpcProvider "https://rpc.b")
             (WalletSigner {| privateKey := "0x0123";
                              wallet_provider := JsonRpcProvider "https://rpc.b" |})
             (Some 137) (resolveChain directory (Some 137)) initialState in
  chain s = resolveChain directory (chainId s) /\ status s <> locked.
Proof.
  cbv zeta.
  destruct (invariants_in_every_interleaving directory anyKey keyAddress _
              (session_rebind directory anyKey keyAddress "0x0123"
                 (JsonRpcProvider "https://rpc.b") 137 initialState eq_refl
                 (session_initial directory anyKey keyAddress)))
    as (H1 & H2 & _).
  split; [exact H1|exact H2].
Defined.

(** Witness of X14: the injected session hears of a chain change while
    the provider reports 137. *)
Lemma chainChanged_rereads_network_witness :
  let w := injected_world directory anyKey keyAddress in
  emit directory (env_granting 137) (chainChanged "0x1") w =
    (Ok tt, committed (with_chain (Some 137) (Some polygon) (current w)) w).
Proof.
  cbv zeta.
  exact (chainChanged_rereads_network directory anyKey keyAddress (env_granting 137)
           "0x1" (injected_world directory anyKey keyAddress) injected_world_reachable).
Defined.

(** Witness of X15: the effect switched off, no stored connector, and a
    stored "metamask". *)
Lemma autoConnect_swallows_failure_witness :
  snd (autoConnectEffect directory false (env_granting 1) (mount ∅)) = mount ∅ /\
  snd (autoConnectEffect directory true (env_granting 1) (mount ∅)) = mount ∅ /\
  snd (autoConnectEffect directory true (env_granting 1)
         (mount {[lastConnectorKey := "metamask"]})) =
    snd (connectMetaMask directory (env_granting 1)
           (mount {[lastConnectorKey := "metamask"]})).
Proof.
  split; [|split].
  - exact (proj1 (proj2 (autoConnect_swallows_failure directory false (env_granting 1)
                           (mount ∅))) eq_refl).
  - refine (proj1 (proj2 (proj2 (autoConnect_swallows_failure directory true
                                   (env_granting 1) (mount ∅)))) _).
    simpl. rewrite lookup_empty. discriminate.
  - refine (proj2 (proj2 (proj2 (autoConnect_swallows_failure directory true
                                   (env_granting 1)
                                   (mount {[lastConnectorKey := "metamask"]}))))
              eq_refl _).
    simpl. apply lookup_singleton_eq.
Defined.

(** Witness of X16: Polygon is the second entry of the directory. *)
Lemma resolveChain_finds_listed_witness :
  resolveChain directory (Some 137) = Some polygon.
Proof.
  refine (proj2 (resolveChain_finds_listed directory [mainnet] polygon [] eq_refl) _).
  intros c [<-|[]]. discriminate.
Defined.

(** Witness of X17. *)
Lemma hexChainId_injective_witness : Z.of_nat 137 = 137.
Proof. exact (hexChainId_injective (Z.of_nat 137) 137 eq_refl). Defined.

(** Witness of X18: the guest session. *)
Lemma status_never_locked_witness :
  status (current (guest_world directory anyKey keyAddress)) <> locked.
Proof.
  exact (status_never_locked directory anyKey keyAddress
           (guest_world directory anyKey keyAddress) guest_world_reachable).
Defined.

(** Witness of X19: the hooks on the injected session. *)
Lemma hooks_agree_on_reachable_witness :
  exists a s n,
    useAddress (Some (value directory anyKey keyAddress
                        (current (injected_world directory anyKey keyAddress)))) = Ok a /\
    useSigner (Some (value directory anyKey keyAddress
                       (current (injected_world directory anyKey keyAddress)))) = Ok s /\
    useNetwork (Some (value directory anyKey keyAddress
                        (current (injected_world directory anyKey keyAddress)))) = Ok n /\
    (isConnected a = true <-> us_status s = connected) /\
    (isConnected a = true -> is_Some (us_signer s)) /\
    un_chain n = resolveChain directory (un_chainId n).
Proof.
  exact (hooks_agree_on_reachable directory anyKey keyAddress
           (injected_world directory anyKey keyAddress) injected_world_reachable).
Defined.

(** Witness of X20: a guest session of a provider without directory. *)
Lemma empty_directory_no_chain_witness :
  chain (current (guest_world [] anyKey keyAddress)) = None.
Proof.
  exact (empty_directory_no_chain [] anyKey keyAddress
           (guest_world [] anyKey keyAddress) eq_refl
           (reachable_run [] anyKey keyAddress (mount ∅)
              (call_connectGuest "0x0123" "https://rpc.a") (env_rpc 1)
              (reachable_mount [] anyKey keyAddress ∅))).
Defined.

(** Witness of X21: the wallet does not know chain 137, accepts to add it,
    and the provider then reports 137. *)
Lemma injected_switch_adds_then_reads_witness :
  let w := injected_world directory anyKey keyAddress in
  switchChain directory anyKey (current w) (env_unknown_chain 137) polygon w =
    (Ok tt,
     sent [wallet_switchEthereumChain "0x89";
           wallet_addEthereumChain (addEthereumChainParams polygon)]
       (committed (with_chain (Some 137) (Some polygon) (current w)) w)).
Proof.
  cbv zeta.
  refine (injected_switch_adds_then_reads directory anyKey keyAddress
            (injected_world directory anyKey keyAddress) (env_unknown_chain 137) polygon
            (wallet_rejecting_switch unrecognizedChain)
            (request_rejecting_switch unrecognizedChain) unrecognizedChain 137
            injected_world_reachable eq_refl eq_refl eq_refl eq_refl _ eq_refl eq_refl).
  discriminate.
Defined.
